(** * inframe: session registry, context cache sink and cache readers

    A shallow embedding of

    - [inframe/recorder.py]                         ([Module Recorder]),
    - [local-inframe/context_mcp_server.py]          ([Module ContextMcpServer]),
    - [local-inframe/context_mcp_server_network.py]  ([Module ContextMcpServerNetwork]),
    - [local-inframe/local_context_recorder.py]      ([Module LocalContextRecorder]),
    - the status and context reads of [inframe/recorder.py]
                                                     ([Module RecorderReads]),
    - [examples/simple_agent.py]                     ([Module SimpleAgent]),

    followed by the properties of the session lifecycle, of the cache
    round trip, of the command line tool and of the example agent.

    Conventions.  Python code runs here in a state-and-exception monad
    [M]: a computation takes the world and gives back either a returned
    value or a raised exception, together with the world it left behind
    (mutations made before a [raise] persist, as in Python).  The capture
    pipeline, the analysis pipeline, the context integrator, the JSON
    encoder and the file system are collaborators whose code is not part
    of the repository sources; what each of their calls answers is read
    from a [Collaborators] record, and every call made is appended to the
    world's call log.  Coroutines are run to completion one after the
    other ([await] is sequencing); [print] calls are left out.

    The file system is the one of a POSIX host: a path holds nothing, a
    text file, or something a read of which raises; a text file is stored
    as it was written and read with Python's universal newlines; writer
    and readers use one text encoding.  Directories are not part of the
    store: whether making one goes through is a collaborator's answer. *)

From Stdlib Require Import ZArith Lia.
From Stdlib Require Import Ascii DecimalString.
From stdpp Require Import base option list strings gmap.

Local Open Scope string_scope.
Local Open Scope Z_scope.
Local Open Scope list_scope.

(** ** Python values, exceptions and results *)

(** The values a context read can hand back: [isinstance(_, dict)] and
    [isinstance(_, str)] are decided on the head constructor. *)
#[local] Unset Elimination Schemes.
Inductive PyValue :=
| PyNone
| PyBool (b : bool)
| PyInt (z : Z)
| PyStr (s : string)
| PyList (l : list PyValue)
| PyDict (d : list (string * PyValue)).
#[local] Set Elimination Schemes.

(** Exceptions, all of them subclasses of [Exception]. *)
Inductive exn :=
| KeyError (key : string)
| FileNotFoundError (path : string)
| CollaboratorError (what : string).

Inductive result (A : Type) :=
| Return (a : A)
| Raise (e : exn).
Arguments Return {A} a.
Arguments Raise {A} e.

Definition returned {A} (r : result A) : bool :=
  match r with Return _ => true | Raise _ => false end.

(** ** Insertion-ordered dictionaries with string keys *)

Module Dict.
Section Dict.
Context {V : Type}.

Definition t := list (string * V).

Definition empty : t := [].

(** [d.get(k)] *)
Fixpoint get (k : string) (d : t) : option V :=
  match d with
  | [] => None
  | (k', v) :: d' => if decide (k = k') then Some v else get k d'
  end.

(** [k in d] *)
Definition contains (k : string) (d : t) : bool :=
  match get k d with Some _ => true | None => false end.

(** [d[k] = v]: an existing key keeps its place, a new one goes last. *)
Fixpoint set (k : string) (v : V) (d : t) : t :=
  match d with
  | [] => [(k, v)]
  | (k', v') :: d' =>
      if decide (k = k') then (k', v) :: d' else (k', v') :: set k v d'
  end.

(** [list(d.keys())] *)
Definition keys (d : t) : list string := map fst d.

(** [list(d.values())] *)
Definition values (d : t) : list V := map snd d.
End Dict.
Arguments t : clear implicits.
End Dict.

(** ** The world the recorder runs in *)

Inductive RecordingMode := full_screen | window_only.

(** [RecorderConfig]: the capture and analysis handles are named by the
    recorder they were created for, which is what scopes them in
    [add_recorder]. *)
Module RecorderConfig.
Record t := mk {
  include_apps : option (list string);
  recording_mode : RecordingMode;
  visual_task : option string;
  video_stream : string;
  transcription_pipeline : string;
  is_recording : bool
}.

(** [config.is_recording = b] *)
Definition set_is_recording (b : bool) (c : t) : t :=
  mk (include_apps c) (recording_mode c) (visual_task c)
     (video_stream c) (transcription_pipeline c) b.
End RecorderConfig.

(** The attributes of a [ContextRecorder] instance. *)
Record ContextRecorder := mkContextRecorder {
  openai_api_key : option string;
  is_recording : bool;
  cache_file : string;
  recorders : Dict.t RecorderConfig.t;
  active_recorders : Z
}.

(** Calls into the collaborators. *)
Inductive call :=
| VideoStream_create (recorder_id : string)
| create_transcription_pipeline (recorder_id : string)
| start_stream (video_stream : string) (mode : RecordingMode)
| start_pipeline (pipeline video_stream : string) (visual_task : option string)
| start_integrator (pipeline : string)
| stop_pipeline (pipeline : string)
| stop_stream (video_stream : string)
| get_current_context
| json_dumps (v : PyValue)
| str (v : PyValue)
| write_text (path content : string).

(** One entry of the call log: the call and whether it went through
    (returned, and for [start_stream] returned a true value). *)
Record event := Ev { ev_call : call; ev_ok : bool }.

(** What the file system holds at a path: a text file, with the text
    last written to it; or something that is there ([exists()] is true)
    and that [read_text] cannot read -- a directory, a file the process has
    no access to, bytes that do not decode -- with the exception the read
    raises. *)
Inductive file :=
| Text (content : string)
| Unreadable (e : exn).

Record World := mkWorld {
  self : ContextRecorder;
  files : gmap string file;
  calls : list event
}.

(** What the collaborators answer during one operation. *)
Record Collaborators := {
  on_VideoStream_create : string -> result unit;
  on_create_transcription_pipeline : string -> result unit;
  on_start_stream : string -> RecordingMode -> result bool;
  on_start_pipeline : string -> string -> option string -> result unit;
  on_start_integrator : string -> result unit;
  on_stop_pipeline : string -> result unit;
  on_stop_stream : string -> result unit;
  on_get_current_context : result PyValue;
  on_json_dumps : PyValue -> result string;
  on_str : PyValue -> result string;
  on_write_text : string -> string -> result unit;
  (** What a [write_text path text] that raised left in the file: nothing
      changed ([None]) when the file could not be opened; otherwise the
      file was emptied on opening and holds what was written of the text
      before the failure. *)
  left_by_failed_write : string -> string -> option string;
  (** The calls of [ContextRecorder.__init__]: making the directory of the
      given cache file, making the directory of the recordings, creating the
      context integrator (given the API key) and handing it the callback. *)
  on_mkdir_cache_dir : string -> result unit;
  on_mkdir_recordings_dir : result unit;
  on_create_context_integrator : option string -> result unit;
  on_set_callback : result unit
}.

(** ** The monad *)

Definition M (A : Type) : Type := World -> result A * World.

Definition ret {A} (a : A) : M A := fun w => (Return a, w).

Definition bind {A B} (m : M A) (k : A -> M B) : M B :=
  fun w =>
    match m w with
    | (Return a, w') => k a w'
    | (Raise e, w') => (Raise e, w')
    end.

Definition raise {A} (e : exn) : M A := fun w => (Raise e, w).

(** [try: body except Exception: handler] *)
Definition try_except {A} (body : M A) (handler : exn -> M A) : M A :=
  fun w =>
    match body w with
    | (Return a, w') => (Return a, w')
    | (Raise e, w') => handler e w'
    end.

Definition get_self : M ContextRecorder := fun w => (Return (self w), w).

Definition modify_self (f : ContextRecorder -> ContextRecorder) : M unit :=
  fun w => (Return tt, mkWorld (f (self w)) (files w) (calls w)).

Definition modify_files (f : gmap string file -> gmap string file) : M unit :=
  fun w => (Return tt, mkWorld (self w) (f (files w)) (calls w)).

Definition get_files : M (gmap string file) := fun w => (Return (files w), w).

(** [x ← m; k] and [m;; k] below are [bind]. *)
#[global] Instance M_ret : MRet M := @ret.
#[global] Instance M_bind : MBind M := fun A B k m => bind m k.

(** A collaborator call: log it, then return or raise what it answers. *)
Definition invoke {A} (c : call) (answer : result A) (ok : A -> bool) : M A :=
  fun w =>
    let logged good := mkWorld (self w) (files w) (calls w ++ [Ev c good]) in
    match answer with
    | Return a => (Return a, logged (ok a))
    | Raise e => (Raise e, logged false)
    end.

Definition went_through {A} (_ : A) : bool := true.

(** A call that is not entered in the log: return or raise what the
    collaborator answers. *)
Definition answered {A} (answer : result A) : M A := fun w => (answer, w).

(** [for x in xs: body(x)] *)
Fixpoint for_each {A} (xs : list A) (body : A -> M unit) : M unit :=
  match xs with
  | [] => ret tt
  | x :: xs' => body x;; for_each xs' body
  end.

(** The world after running a computation, and what it gave. *)
Definition exec {A} (m : M A) (w : World) : World := snd (m w).
Definition eval {A} (m : M A) (w : World) : result A := fst (m w).

(** ** [inframe/recorder.py]: class [ContextRecorder] *)

Module Recorder.

(** The attributes [ContextRecorder.__init__] gives the new object: no
    recorder yet, nothing recording. *)
Definition __init__ (openai_api_key : option string) (cache_file : string)
  : ContextRecorder :=
  mkContextRecorder openai_api_key false cache_file Dict.empty 0.

Definition with_recorders (f : Dict.t RecorderConfig.t -> Dict.t RecorderConfig.t)
  (s : ContextRecorder) : ContextRecorder :=
  mkContextRecorder (openai_api_key s) (is_recording s) (cache_file s)
    (f (recorders s)) (active_recorders s).

Definition with_is_recording (b : bool) (s : ContextRecorder) : ContextRecorder :=
  mkContextRecorder (openai_api_key s) b (cache_file s)
    (recorders s) (active_recorders s).

Definition with_active_recorders (n : Z) (s : ContextRecorder) : ContextRecorder :=
  mkContextRecorder (openai_api_key s) (is_recording s) (cache_file s)
    (recorders s) n.

(** [self.recorders[recorder_id]] *)
Definition getitem_recorders (recorder_id : string) : M RecorderConfig.t :=
  s ← get_self;
  match Dict.get recorder_id (recorders s) with
  | Some config => ret config
  | None => raise (KeyError recorder_id)
  end.

(** [config.is_recording = b], where [config] is the object stored under
    [recorder_id]: the assignment is seen through the dictionary. *)
Definition setattr_is_recording (recorder_id : string) (b : bool) : M unit :=
  modify_self (with_recorders (fun d =>
    match Dict.get recorder_id d with
    | Some config => Dict.set recorder_id (RecorderConfig.set_is_recording b config) d
    | None => d
    end)).

Section Methods.
Variable env : Collaborators.

(** [ContextRecorder(openai_api_key, cache_file)]: [__init__] run on a
    new object.  It makes the directory of the cache file and the directory
    of the recordings, creates the context integrator and hands it the
    callback; when one of these calls raises no object is made and the
    exception is the caller's.  These calls are not entered in the log. *)
Definition new (openai_api_key : option string) (cache_file : string) : M unit :=
  answered (on_mkdir_cache_dir env cache_file);;
  answered (on_mkdir_recordings_dir env);;
  answered (on_create_context_integrator env openai_api_key);;
  answered (on_set_callback env);;
  modify_self (fun _ => __init__ openai_api_key cache_file).

(** What a [write_text] that raised leaves of the files. *)
Definition after_failed_write (path data : string) (fs : gmap string file)
  : gmap string file :=
  match left_by_failed_write env path data with
  | Some remains => <[path := Text remains]> fs
  | None => fs
  end.

(** [path.write_text(data)]: when the call goes through the file holds
    the text, whatever was there; when it raises the file is as the failed
    call left it. *)
Definition Path_write_text (path data : string) : M unit :=
  try_except
    (invoke (write_text path data) (on_write_text env path data) went_through)
    (fun e => modify_files (after_failed_write path data);; raise e);;
  modify_files (insert path (Text data)).

(** [ContextRecorder._on_context_update] *)
Definition _on_context_update (context_update : PyValue) : M unit :=
  try_except
    (current_context ←
       invoke get_current_context (on_get_current_context env) went_through;
     current_context ←
       match current_context with
       | PyDict _ =>
           invoke (json_dumps current_context)
             (on_json_dumps env current_context) went_through
       | PyStr text => ret text
       | _ =>
           invoke (str current_context)
             (on_str env current_context) went_through
       end;
     s ← get_self;
     Path_write_text (cache_file s) current_context)
    (fun _ => ret tt).

(** [ContextRecorder.add_recorder]; [recorder_id] is the fresh
    [str(uuid.uuid4())]. *)
Definition add_recorder (recorder_id : string)
  (include_apps : option (list string)) (recording_mode : RecordingMode)
  (visual_task : option string) : M string :=
  invoke (VideoStream_create recorder_id)
    (on_VideoStream_create env recorder_id) went_through;;
  invoke (create_transcription_pipeline recorder_id)
    (on_create_transcription_pipeline env recorder_id) went_through;;
  modify_self (with_recorders (Dict.set recorder_id
    (RecorderConfig.mk include_apps recording_mode visual_task
       recorder_id recorder_id false)));;
  ret recorder_id.

(** [ContextRecorder.start] *)
Definition start (recorder_id : string) : M bool :=
  s ← get_self;
  if negb (Dict.contains recorder_id (recorders s)) then ret false
  else
    try_except
      (config ← getitem_recorders recorder_id;
       let video_stream := RecorderConfig.video_stream config in
       let recording_mode := RecorderConfig.recording_mode config in
       let transcription_pipeline := RecorderConfig.transcription_pipeline config in
       let visual_task := RecorderConfig.visual_task config in
       success ←
         invoke (start_stream video_stream recording_mode)
           (on_start_stream env video_stream recording_mode) id;
       if negb success then ret false
       else
         invoke (start_pipeline transcription_pipeline video_stream visual_task)
           (on_start_pipeline env transcription_pipeline video_stream visual_task)
           went_through;;
         invoke (start_integrator transcription_pipeline)
           (on_start_integrator env transcription_pipeline) went_through;;
         setattr_is_recording recorder_id true;;
         modify_self (with_is_recording true);;
         modify_self (fun s => with_active_recorders (active_recorders s + 1) s);;
         ret true)
      (fun _ => ret false).

(** [ContextRecorder.stop] *)
Definition stop (recorder_id : string) : M unit :=
  config ← getitem_recorders recorder_id;
  if negb (RecorderConfig.is_recording config) then ret tt
  else
    try_except
      (config ← getitem_recorders recorder_id;
       let video_stream := RecorderConfig.video_stream config in
       let transcription_pipeline := RecorderConfig.transcription_pipeline config in
       invoke (stop_pipeline transcription_pipeline)
         (on_stop_pipeline env transcription_pipeline) went_through;;
       invoke (stop_stream video_stream)
         (on_stop_stream env video_stream) went_through;;
       setattr_is_recording recorder_id false;;
       modify_self (fun s => with_active_recorders (active_recorders s - 1) s);;
       s ← get_self;
       if active_recorders s =? 0
       then modify_self (with_is_recording false)
       else ret tt)
      (fun _ => ret tt).

(** [ContextRecorder.shutdown] *)
Definition shutdown : M unit :=
  s ← get_self;
  for_each (Dict.keys (recorders s)) (fun recorder_id =>
    config ← getitem_recorders recorder_id;
    if RecorderConfig.is_recording config
    then try_except (stop recorder_id) (fun _ => ret tt)
    else ret tt);;
  modify_self (with_is_recording false);;
  modify_self (with_active_recorders 0).

(** [ContextRecorder.get_cache_file_path] *)
Definition get_cache_file_path : M string :=
  s ← get_self; ret (cache_file s).
End Methods.

End Recorder.

(** ** Dates, [strftime] and paths *)

(** The date fields of [datetime.now()]. *)
Record datetime := mkDate { year : Z; month : Z; day : Z }.

Definition digit (n : Z) : ascii := ascii_of_nat (Z.to_nat (48 + n mod 10)).

(** Zero-padded decimal of fixed width ([%d], [%m]: two digits; [%Y]:
    four, as the Python documentation gives it). *)
Definition two_digits (n : Z) : string :=
  String (digit (n / 10)) (String (digit n) "").

Definition four_digits (n : Z) : string :=
  two_digits (n / 100) +:+ two_digits n.

Definition directive (c : ascii) (now : datetime) : string :=
  if decide (c = "d"%char) then two_digits (day now)
  else if decide (c = "m"%char) then two_digits (month now)
  else if decide (c = "Y"%char) then four_digits (year now)
  else String "%"%char (String c "").

(** [now.strftime(fmt)] for the directives the sources use. *)
Fixpoint strftime (fmt : string) (now : datetime) : string :=
  match fmt with
  | EmptyString => ""
  | String c rest =>
      if decide (c = "%"%char) then
        match rest with
        | String d rest' => directive d now +:+ strftime rest' now
        | EmptyString => String c ""
        end
      else String c (strftime rest now)
  end.

(** [Path(home) / rel] *)
Definition path_join (home rel : string) : string := home +:+ "/" +:+ rel.

(** ** Reading the file system *)

(** [path.exists()] *)
Definition exists_ (path : string) : M bool :=
  fs ← get_files;
  ret (match fs !! path with Some _ => true | None => false end).

Definition newline : ascii := ascii_of_nat 10.

Definition carriage_return : ascii := ascii_of_nat 13.

(** Universal newlines, as a file opened for reading in text mode with
    [newline=None] applies them: a carriage return followed by a line feed,
    and a carriage return on its own, are read as one line feed. *)
Fixpoint universal_newlines (s : string) : string :=
  match s with
  | EmptyString => ""
  | String c rest =>
      if decide (c = carriage_return) then
        String newline
          match rest with
          | String c' rest' =>
              if decide (c' = newline) then universal_newlines rest'
              else universal_newlines rest
          | EmptyString => ""
          end
      else String c (universal_newlines rest)
  end.

(** Whether a text has a carriage return in it. *)
Fixpoint has_carriage_return (s : string) : bool :=
  match s with
  | EmptyString => false
  | String c rest => bool_decide (c = carriage_return) || has_carriage_return rest
  end.

(** [path.read_text()] *)
Definition read_text (path : string) : M string :=
  fs ← get_files;
  match fs !! path with
  | Some (Text content) => ret (universal_newlines content)
  | Some (Unreadable e) => raise e
  | None => raise (FileNotFoundError path)
  end.

(** [s.split(sep)] for a one-character separator. *)
Fixpoint split (sep : ascii) (s : string) : list string :=
  match s with
  | EmptyString => [""]
  | String c rest =>
      if decide (c = sep) then "" :: split sep rest
      else
        match split sep rest with
        | line :: lines => String c line :: lines
        | [] => [String c ""]
        end
  end.

(** [line.startswith(prefix)] *)
Definition startswith (line prefix : string) : bool := String.prefix prefix line.

(** [len(s)] inside an f-string. *)
Definition len_str (s : string) : string :=
  NilZero.string_of_uint (Nat.to_uint (String.length s)).

(** Truth value of [recent_session]: [None] and the empty string are false. *)
Definition truthy (o : option string) : bool :=
  match o with
  | Some s => negb (bool_decide (s = ""))
  | None => false
  end.

(** The loop that keeps the last line starting with the session marker. *)
Definition most_recent_session (lines : list string) : option string :=
  fold_left (fun recent_session line =>
     if startswith line "NEW RECORDING SESSION" then Some line
     else recent_session) lines None.

(** The body shared by both [check_screen_context_status] tools once the
    file has been read. *)
Definition status_of (content : string) : string :=
  let lines := split newline content in
  let recent_session := most_recent_session lines in
  if truthy recent_session then
    "Screen context is available. " +:+ default "" recent_session +:+
    String newline "Total content length: " +:+ len_str content +:+ " characters"
  else
    "Screen context file exists but no sessions found. Content length: " +:+
    len_str content +:+ " characters".

(** ** [local-inframe/context_mcp_server.py] *)

Module ContextMcpServer.
Section Server.
Variables (home : string) (now : datetime).

Definition ddmmyyyy : string := strftime "%d%m%Y" now.

Definition cache_file : string :=
  path_join home (".cache/inframe/" +:+ ddmmyyyy).

Definition no_context : string :=
  "No screen context available. Run 'python local_context_recorder.py' to record some context.".

Definition get_latest_screen_context : M string :=
  there ← exists_ cache_file;
  if (there : bool) then
    content ← read_text cache_file;
    ret content
  else ret no_context.

Definition check_screen_context_status : M string :=
  there ← exists_ cache_file;
  if (there : bool) then
    content ← read_text cache_file;
    ret (status_of content)
  else ret no_context.
End Server.
End ContextMcpServer.

(** ** [local-inframe/context_mcp_server_network.py] *)

Module ContextMcpServerNetwork.
Section Server.
Variables (home : string) (now : datetime).

Definition ddmmyyyy : string := strftime "%d%m%Y" now.

Definition cache_file : string :=
  path_join home (".cache/inframe/" +:+ ddmmyyyy).

Definition no_context : string :=
  "No screen context available. Run 'python silent_context.py' to record some context.".

Definition get_screen_context : M string :=
  there ← exists_ cache_file;
  if (there : bool) then read_text cache_file else ret no_context.

Definition get_latest_screen_context : M string :=
  there ← exists_ cache_file;
  if (there : bool) then
    content ← read_text cache_file;
    ret content
  else ret no_context.

Definition check_screen_context_status : M string :=
  there ← exists_ cache_file;
  if (there : bool) then
    content ← read_text cache_file;
    ret (status_of content)
  else ret no_context.
End Server.
End ContextMcpServerNetwork.

(** ** [local-inframe/local_context_recorder.py] *)

Module Args.
Record t := mk {
  duration : Z;
  include_apps : list string;
  recording_mode : RecordingMode;
  visual_task : string;
  print_context : bool;
  cache_file : string
}.
End Args.

Module LocalContextRecorder.

(** The defaults [argparse] fills in. *)
Definition default_args (home : string) (now : datetime) : Args.t :=
  Args.mk 30
    ["Visual Studio Code"; "Cursor"; "PyCharm"; "IntelliJ IDEA"]
    full_screen
    "Describe the screen content focusing on application names, file names, UI elements, and text content."
    false
    (path_join home (".cache/inframe/" +:+ strftime "%Y%m%d" now)).

Section Cli.
Variable env : Collaborators.
(** The identifier [uuid4] draws, and the updates the integrator pushes
    while the tool sleeps. *)
Variable uuid : string.
Variable pushed : list PyValue.

(** [main_async] *)
Definition main_async (args : Args.t) : M unit :=
  Recorder.new env None (Args.cache_file args);;
  recorder_id ←
    Recorder.add_recorder env uuid (Some (Args.include_apps args))
      (Args.recording_mode args) (Some (Args.visual_task args));
  started ← Recorder.start env recorder_id;
  if negb started then ret tt
  else
    for_each pushed (Recorder._on_context_update env);;
    Recorder.stop env recorder_id;;
    cache_file ← Recorder.get_cache_file_path;
    if Args.print_context args then
      try_except
        (there ← exists_ cache_file;
         if (there : bool) then read_text cache_file;; ret tt else ret tt)
        (fun _ => ret tt)
    else ret tt.

(** The exit status of the interpreter: 0 when [main] returns, 1 when
    an exception escapes it. *)
Definition exit_status (r : result unit) : Z :=
  match r with Return _ => 0 | Raise _ => 1 end.

(** [main], from parsed arguments and the files present at launch.  No
    call has been made yet; the recorder the world starts with is the one
    [main_async] is about to build. *)
Definition main (args : Args.t) (fs : gmap string file) : Z :=
  exit_status
    (eval (main_async args)
       (mkWorld (Recorder.__init__ None (Args.cache_file args)) fs [])).
End Cli.

End LocalContextRecorder.

(** ** Vocabulary of the properties *)

(** The active flag of a session, [false] for an unknown identifier. *)
Definition session_active (recorder_id : string) (w : World) : bool :=
  match Dict.get recorder_id (recorders (self w)) with
  | Some config => RecorderConfig.is_recording config
  | None => false
  end.

(** Number of session records whose active flag is set. *)
Fixpoint count_active (d : Dict.t RecorderConfig.t) : Z :=
  match d with
  | [] => 0
  | (_, config) :: d' =>
      (if RecorderConfig.is_recording config then 1 else 0) + count_active d'
  end.

(** The registry invariant: the counter counts the active records, and
    the global flag says whether there are any. *)
Definition registry_consistent (s : ContextRecorder) : Prop :=
  active_recorders s = count_active (recorders s) /\
  (is_recording s = true <-> 0 < active_recorders s).

(** Modelled from the spec: the started state of a Capture Pipeline
    handle, whose code ([src.video_stream]) is not among the sources.  The
    spec gives it a start and a stop; a handle is taken to be started by a
    [start_stream] call that went through and stopped by a [stop_stream]
    call that went through. *)
Definition capture_step (h : string) (started : bool) (e : event) : bool :=
  match ev_call e with
  | start_stream h' _ => if decide (h = h') then started || ev_ok e else started
  | stop_stream h' => if decide (h = h') then started && negb (ev_ok e) else started
  | _ => started
  end.

Definition capture_started (h : string) (log : list event) : bool :=
  fold_left (capture_step h) log false.

(** Modelled from the spec: the started state of an Analysis Pipeline
    handle ([src.transcription_pipeline] is not among the sources), read
    off the call log in the same way. *)
Definition analysis_step (h : string) (started : bool) (e : event) : bool :=
  match ev_call e with
  | start_pipeline h' _ _ => if decide (h = h') then started || ev_ok e else started
  | stop_pipeline h' => if decide (h = h') then started && negb (ev_ok e) else started
  | _ => started
  end.

Definition analysis_started (h : string) (log : list event) : bool :=
  fold_left (analysis_step h) log false.

(** The three start calls of a session, all gone through. *)
Definition started_calls (config : RecorderConfig.t) : list event :=
  [ Ev (start_stream (RecorderConfig.video_stream config)
          (RecorderConfig.recording_mode config)) true;
    Ev (start_pipeline (RecorderConfig.transcription_pipeline config)
          (RecorderConfig.video_stream config)
          (RecorderConfig.visual_task config)) true;
    Ev (start_integrator (RecorderConfig.transcription_pipeline config)) true ].

(** The calls a failed [start] can have made: the capture start did not
    go through; or it did and the analysis start did not; or both did and
    the integrator start did not. *)
Definition failed_start_calls (config : RecorderConfig.t) : list (list event) :=
  let capture :=
    start_stream (RecorderConfig.video_stream config)
      (RecorderConfig.recording_mode config) in
  let analysis :=
    start_pipeline (RecorderConfig.transcription_pipeline config)
      (RecorderConfig.video_stream config) (RecorderConfig.visual_task config) in
  let integrator :=
    start_integrator (RecorderConfig.transcription_pipeline config) in
  [ [Ev capture false];
    [Ev capture true; Ev analysis false];
    [Ev capture true; Ev analysis true; Ev integrator false] ].

(** What a call of [start] on a known session is expected to leave
    behind: everything started and flagged when it answers [True], nothing
    flagged and nothing left started when it answers [False]. *)
Definition start_leaves_all_or_nothing
  (env : Collaborators) (recorder_id : string) (w : World) : Prop :=
  forall config,
    Dict.get recorder_id (recorders (self w)) = Some config ->
    let w' := exec (Recorder.start env recorder_id) w in
    match eval (Recorder.start env recorder_id) w with
    | Return true =>
        session_active recorder_id w' = true /\
        is_recording (self w') = true /\
        capture_started (RecorderConfig.video_stream config) (calls w') = true /\
        analysis_started (RecorderConfig.transcription_pipeline config) (calls w') = true
    | Return false =>
        session_active recorder_id w' = false /\
        capture_started (RecorderConfig.video_stream config) (calls w') = false /\
        analysis_started (RecorderConfig.transcription_pipeline config) (calls w') = false
    | Raise _ => False
    end.

(** Whether both stop calls of a session go through. *)
Definition stops_go_through (env : Collaborators) (config : RecorderConfig.t) : bool :=
  returned (on_stop_pipeline env (RecorderConfig.transcription_pipeline config)) &&
  returned (on_stop_stream env (RecorderConfig.video_stream config)).

(** *** Sequences of registry operations *)

Inductive op :=
| AddRecorder (env : Collaborators) (recorder_id : string)
    (include_apps : option (list string)) (mode : RecordingMode)
    (visual_task : option string)
| Start (env : Collaborators) (recorder_id : string)
| Stop (env : Collaborators) (recorder_id : string)
| Shutdown (env : Collaborators)
| ContextUpdate (env : Collaborators) (context_update : PyValue).

Definition run_op (o : op) (w : World) : World :=
  match o with
  | AddRecorder env recorder_id include_apps mode visual_task =>
      exec (Recorder.add_recorder env recorder_id include_apps mode visual_task) w
  | Start env recorder_id => exec (Recorder.start env recorder_id) w
  | Stop env recorder_id => exec (Recorder.stop env recorder_id) w
  | Shutdown env => exec (Recorder.shutdown env) w
  | ContextUpdate env context_update =>
      exec (Recorder._on_context_update env context_update) w
  end.

Definition run (ops : list op) (w : World) : World :=
  fold_left (fun w o => run_op o w) ops w.

(** A freshly constructed recorder. *)
Definition fresh_world (api_key : option string) (cache_file : string)
  (fs : gmap string file) : World :=
  mkWorld (Recorder.__init__ api_key cache_file) fs [].

(** The operations under which the registry invariant is kept: every
    new session gets an unused identifier; [start] is not repeated on a
    session that is already active; and during [shutdown] the stop calls
    of the sessions still active go through. *)
Definition admissible (o : op) (w : World) : Prop :=
  match o with
  | AddRecorder _ recorder_id _ _ _ =>
      Dict.get recorder_id (recorders (self w)) = None
  | Start _ recorder_id => session_active recorder_id w = false
  | Stop _ _ => True
  | Shutdown env =>
      forall recorder_id config,
        Dict.get recorder_id (recorders (self w)) = Some config ->
        RecorderConfig.is_recording config = true ->
        stops_go_through env config = true
  | ContextUpdate _ _ => True
  end.

Inductive reachable : World -> Prop :=
| reachable_fresh api_key cache_file fs :
    reachable (fresh_world api_key cache_file fs)
| reachable_step w o :
    reachable w -> admissible o w -> reachable (run_op o w).

(** *** Collaborator scripts and worlds used in the examples *)

(** Every collaborator call goes through; the context is plain text. *)
Definition all_fine : Collaborators := {|
  on_VideoStream_create := fun _ => Return tt;
  on_create_transcription_pipeline := fun _ => Return tt;
  on_start_stream := fun _ _ => Return true;
  on_start_pipeline := fun _ _ _ => Return tt;
  on_start_integrator := fun _ => Return tt;
  on_stop_pipeline := fun _ => Return tt;
  on_stop_stream := fun _ => Return tt;
  on_get_current_context := Return (PyStr "editing recorder.py");
  on_json_dumps := fun _ => Return "{}";
  on_str := fun _ => Return "None";
  on_write_text := fun _ _ => Return tt;
  left_by_failed_write := fun _ _ => None;
  on_mkdir_cache_dir := fun _ => Return tt;
  on_mkdir_recordings_dir := Return tt;
  on_create_context_integrator := fun _ => Return tt;
  on_set_callback := Return tt
|}.

(** The analysis pipeline refuses to start. *)
Definition analysis_fails : Collaborators := {|
  on_VideoStream_create := fun _ => Return tt;
  on_create_transcription_pipeline := fun _ => Return tt;
  on_start_stream := fun _ _ => Return true;
  on_start_pipeline := fun _ _ _ => Raise (CollaboratorError "no model");
  on_start_integrator := fun _ => Return tt;
  on_stop_pipeline := fun _ => Return tt;
  on_stop_stream := fun _ => Return tt;
  on_get_current_context := Return (PyStr "editing recorder.py");
  on_json_dumps := fun _ => Return "{}";
  on_str := fun _ => Return "None";
  on_write_text := fun _ _ => Return tt;
  left_by_failed_write := fun _ _ => None;
  on_mkdir_cache_dir := fun _ => Return tt;
  on_mkdir_recordings_dir := Return tt;
  on_create_context_integrator := fun _ => Return tt;
  on_set_callback := Return tt
|}.

(** The capture stream does not come up. *)
Definition capture_fails : Collaborators := {|
  on_VideoStream_create := fun _ => Return tt;
  on_create_transcription_pipeline := fun _ => Return tt;
  on_start_stream := fun _ _ => Return false;
  on_start_pipeline := fun _ _ _ => Return tt;
  on_start_integrator := fun _ => Return tt;
  on_stop_pipeline := fun _ => Return tt;
  on_stop_stream := fun _ => Return tt;
  on_get_current_context := Return (PyStr "editing recorder.py");
  on_json_dumps := fun _ => Return "{}";
  on_str := fun _ => Return "None";
  on_write_text := fun _ _ => Return tt;
  left_by_failed_write := fun _ _ => None;
  on_mkdir_cache_dir := fun _ => Return tt;
  on_mkdir_recordings_dir := Return tt;
  on_create_context_integrator := fun _ => Return tt;
  on_set_callback := Return tt
|}.

(** Stopping the capture stream raises. *)
Definition stop_stream_fails : Collaborators := {|
  on_VideoStream_create := fun _ => Return tt;
  on_create_transcription_pipeline := fun _ => Return tt;
  on_start_stream := fun _ _ => Return true;
  on_start_pipeline := fun _ _ _ => Return tt;
  on_start_integrator := fun _ => Return tt;
  on_stop_pipeline := fun _ => Return tt;
  on_stop_stream := fun _ => Raise (CollaboratorError "stream busy");
  on_get_current_context := Return (PyStr "editing recorder.py");
  on_json_dumps := fun _ => Return "{}";
  on_str := fun _ => Return "None";
  on_write_text := fun _ _ => Return tt;
  left_by_failed_write := fun _ _ => None;
  on_mkdir_cache_dir := fun _ => Return tt;
  on_mkdir_recordings_dir := Return tt;
  on_create_context_integrator := fun _ => Return tt;
  on_set_callback := Return tt
|}.

(** The cache file cannot be written: it is opened, and so emptied, and
    then there is no room for the text. *)
Definition write_fails : Collaborators := {|
  on_VideoStream_create := fun _ => Return tt;
  on_create_transcription_pipeline := fun _ => Return tt;
  on_start_stream := fun _ _ => Return true;
  on_start_pipeline := fun _ _ _ => Return tt;
  on_start_integrator := fun _ => Return tt;
  on_stop_pipeline := fun _ => Return tt;
  on_stop_stream := fun _ => Return tt;
  on_get_current_context := Return (PyStr "editing recorder.py");
  on_json_dumps := fun _ => Return "{}";
  on_str := fun _ => Return "None";
  on_write_text := fun _ _ => Raise (CollaboratorError "disk full");
  left_by_failed_write := fun _ _ => Some "";
  on_mkdir_cache_dir := fun _ => Return tt;
  on_mkdir_recordings_dir := Return tt;
  on_create_context_integrator := fun _ => Return tt;
  on_set_callback := Return tt
|}.

Definition empty_world : World := fresh_world None "/home/u/.cache/inframe/20250704" ∅.

(** One session, created and not started. *)
Definition one_session : World :=
  run [AddRecorder all_fine "rec-1" None full_screen None] empty_world.

(** One session, started. *)
Definition one_recording : World :=
  run [Start all_fine "rec-1"] one_session.

(** Two sessions, both started. *)
Definition two_recording : World :=
  run [AddRecorder all_fine "rec-1" None full_screen None;
       AddRecorder all_fine "rec-2" None window_only None;
       Start all_fine "rec-1"; Start all_fine "rec-2"] empty_world.

(** The record ["rec-1"] as [add_recorder] makes it. *)
Definition rec1_config : RecorderConfig.t :=
  RecorderConfig.mk None full_screen None "rec-1" "rec-1" false.

(** The recorder object after a [stop] of [recorder_id] whose two stop
    calls went through. *)
Definition stopped (recorder_id : string) (config : RecorderConfig.t)
  (s : ContextRecorder) : ContextRecorder :=
  mkContextRecorder (openai_api_key s)
    (if active_recorders s - 1 =? 0 then false else is_recording s)
    (cache_file s)
    (Dict.set recorder_id (RecorderConfig.set_is_recording false config) (recorders s))
    (active_recorders s - 1).

(** The calls a [stop] makes on an active session. *)
Definition stop_calls (env : Collaborators) (config : RecorderConfig.t) : list event :=
  match on_stop_pipeline env (RecorderConfig.transcription_pipeline config) with
  | Return _ =>
      [ Ev (stop_pipeline (RecorderConfig.transcription_pipeline config)) true;
        Ev (stop_stream (RecorderConfig.video_stream config))
           (returned (on_stop_stream env (RecorderConfig.video_stream config))) ]
  | Raise _ =>
      [ Ev (stop_pipeline (RecorderConfig.transcription_pipeline config)) false ]
  end.

(** One turn of the loop of [shutdown]. *)
Definition shutdown_turn (env : Collaborators) (recorder_id : string) : M unit :=
  config ← Recorder.getitem_recorders recorder_id;
  if RecorderConfig.is_recording config
  then try_except (Recorder.stop env recorder_id) (fun _ => ret tt)
  else ret tt.

(** The first call [stop] makes on an active session, as logged. *)
Definition stop_attempt (env : Collaborators) (config : RecorderConfig.t) : event :=
  Ev (stop_pipeline (RecorderConfig.transcription_pipeline config))
     (returned (on_stop_pipeline env (RecorderConfig.transcription_pipeline config))).

(** The recorder object after a [start] of [recorder_id] whose three
    start calls went through. *)
Definition started (recorder_id : string) (config : RecorderConfig.t)
  (s : ContextRecorder) : ContextRecorder :=
  mkContextRecorder (openai_api_key s) true (cache_file s)
    (Dict.set recorder_id (RecorderConfig.set_is_recording true config) (recorders s))
    (active_recorders s + 1).

(** The text a snapshot is cached as, in the words of the spec: text is
    passed through and a structured value (a dictionary) is JSON-encoded;
    anything else is given to [str], as the code does. *)
Definition snapshot_text (env : Collaborators) (snapshot : PyValue) : result string :=
  match snapshot with
  | PyStr text => Return text
  | PyDict _ => on_json_dumps env snapshot
  | _ => on_str env snapshot
  end.

(** A structured snapshot. *)
Definition window_snapshot : PyValue :=
  PyDict [("app", PyStr "Cursor"); ("file", PyStr "recorder.py")].

(** The integrator holds a structured snapshot, which encodes fine. *)
Definition structured_context : Collaborators := {|
  on_VideoStream_create := fun _ => Return tt;
  on_create_transcription_pipeline := fun _ => Return tt;
  on_start_stream := fun _ _ => Return true;
  on_start_pipeline := fun _ _ _ => Return tt;
  on_start_integrator := fun _ => Return tt;
  on_stop_pipeline := fun _ => Return tt;
  on_stop_stream := fun _ => Return tt;
  on_get_current_context := Return window_snapshot;
  on_json_dumps := fun _ => Return "{ }";
  on_str := fun _ => Return "None";
  on_write_text := fun _ _ => Return tt;
  left_by_failed_write := fun _ _ => None;
  on_mkdir_cache_dir := fun _ => Return tt;
  on_mkdir_recordings_dir := Return tt;
  on_create_context_integrator := fun _ => Return tt;
  on_set_callback := Return tt
|}.

(** A recorder told to cache where the readers look on 4 July 2025, with
    yesterday's text still in the file. *)
Definition reader_side_world : World :=
  fresh_world None "/home/u/.cache/inframe/04072025"
    {[ "/home/u/.cache/inframe/04072025" := Text "stale" ]}.

(** What is carried along a run: the invariant, and that no identifier
    is listed twice. *)
Definition well_formed (w : World) : Prop :=
  registry_consistent (self w) /\ NoDup (Dict.keys (recorders (self w))).

(** One session started twice in a row. *)
Definition started_twice : World :=
  run [AddRecorder all_fine "rec-1" None full_screen None;
       Start all_fine "rec-1"; Start all_fine "rec-1"]
      (fresh_world None "/home/u/.cache/inframe/20250704" ∅).

(** What the cache readers are expected to do on a store with no
    context in it: the file missing, or there and empty. *)
Definition no_context_on_missing_or_empty
  (home : string) (now : datetime) (w : World) : Prop :=
  files w !! ContextMcpServer.cache_file home now = None \/
  files w !! ContextMcpServer.cache_file home now = Some (Text "") ->
  eval (ContextMcpServer.get_latest_screen_context home now) w
    = Return ContextMcpServer.no_context /\
  eval (ContextMcpServer.check_screen_context_status home now) w
    = Return ContextMcpServer.no_context.

(** The readers' cache file is there and empty. *)
Definition empty_cache_world : World :=
  fresh_world None "/home/u/.cache/inframe/04072025"
    {[ "/home/u/.cache/inframe/04072025" := Text "" ]}.

(** The world [main] starts [main_async] in, which is also the world the
    constructor leaves when its calls go through. *)
Definition launch (args : Args.t) (fs : gmap string file) : World :=
  fresh_world None (Args.cache_file args) fs.

(** Whether the four calls of the constructor answer. *)
Definition constructor_answers (env : Collaborators)
  (openai_api_key : option string) (cache_file : string) : bool :=
  returned (on_mkdir_cache_dir env cache_file) &&
  returned (on_mkdir_recordings_dir env) &&
  returned (on_create_context_integrator env openai_api_key) &&
  returned (on_set_callback env).


(** What the round trip through the cache is expected to give: after an
    update whose steps went through, the reader that opens the cache file
    gets the very text the snapshot was cached as. *)
Definition reads_back_the_cached_text
  (env : Collaborators) (context_update : PyValue) (w : World)
  (home : string) (now : datetime) : Prop :=
  forall snapshot text,
    on_get_current_context env = Return snapshot ->
    snapshot_text env snapshot = Return text ->
    on_write_text env (cache_file (self w)) text = Return tt ->
    ContextMcpServer.cache_file home now = cache_file (self w) ->
    eval (ContextMcpServer.get_latest_screen_context home now)
      (exec (Recorder._on_context_update env context_update) w) = Return text.

(** The directory of the cache file cannot be made: [.cache/inframe] is
    there already, as a file. *)
Definition mkdir_fails : Collaborators := {|
  on_VideoStream_create := fun _ => Return tt;
  on_create_transcription_pipeline := fun _ => Return tt;
  on_start_stream := fun _ _ => Return true;
  on_start_pipeline := fun _ _ _ => Return tt;
  on_start_integrator := fun _ => Return tt;
  on_stop_pipeline := fun _ => Return tt;
  on_stop_stream := fun _ => Return tt;
  on_get_current_context := Return (PyStr "editing recorder.py");
  on_json_dumps := fun _ => Return "{}";
  on_str := fun _ => Return "None";
  on_write_text := fun _ _ => Return tt;
  left_by_failed_write := fun _ _ => None;
  on_mkdir_cache_dir := fun _ =>
    Raise (CollaboratorError "[Errno 17] File exists: '/home/u/.cache/inframe'");
  on_mkdir_recordings_dir := Return tt;
  on_create_context_integrator := fun _ => Return tt;
  on_set_callback := Return tt
|}.

(** What a read of a directory raises, and a world in which the readers'
    cache path is a directory. *)
Definition IsADirectoryError (path : string) : exn :=
  CollaboratorError ("[Errno 21] Is a directory: '" +:+ path +:+ "'").

Definition directory_world : World :=
  fresh_world None "/home/u/.cache/inframe/04072025"
    {[ "/home/u/.cache/inframe/04072025" :=
         Unreadable (IsADirectoryError "/home/u/.cache/inframe/04072025") ]}.

(** A text whose lines end as they do on Windows, and an integrator that
    holds it. *)
Definition windows_text : string :=
  "line one" +:+ String carriage_return (String newline "line two").

Definition windows_context : Collaborators := {|
  on_VideoStream_create := fun _ => Return tt;
  on_create_transcription_pipeline := fun _ => Return tt;
  on_start_stream := fun _ _ => Return true;
  on_start_pipeline := fun _ _ _ => Return tt;
  on_start_integrator := fun _ => Return tt;
  on_stop_pipeline := fun _ => Return tt;
  on_stop_stream := fun _ => Return tt;
  on_get_current_context := Return (PyStr windows_text);
  on_json_dumps := fun _ => Return "{}";
  on_str := fun _ => Return "None";
  on_write_text := fun _ _ => Return tt;
  left_by_failed_write := fun _ _ => None;
  on_mkdir_cache_dir := fun _ => Return tt;
  on_mkdir_recordings_dir := Return tt;
  on_create_context_integrator := fun _ => Return tt;
  on_set_callback := Return tt
|}.

(** 4 July 2025, and the arguments [argparse] gives the tool that day. *)
Definition july_4th : datetime := mkDate 2025 7 4.

Definition todays_args : Args.t :=
  LocalContextRecorder.default_args "/home/u" july_4th.

(** ** [inframe/recorder.py]: the reads of [ContextRecorder] *)

(** What the collaborators answer to the reads of their status, which
    the recorder subscripts as dictionaries, and to the request for a
    session summary.  These reads are not entered in the call log. *)
Record StatusReads := {
  on_get_buffer_status : string -> result (list (string * PyValue));
  on_get_pipeline_status : string -> result (list (string * PyValue));
  on_get_context_status : result (list (string * PyValue));
  on_export_session_summary : result PyValue
}.

(** [TypeError(msg)]: of an exception the handlers below look at the
    message only, which is what [CollaboratorError] carries. *)
Definition TypeError (msg : string) : exn := CollaboratorError msg.

(** [str(e)]; for a [KeyError] this is the [repr] of the key, given here
    for keys with no quote or backslash in them. *)
Definition exn_str (e : exn) : string :=
  match e with
  | KeyError key => "'" +:+ key +:+ "'"
  | FileNotFoundError path =>
      "[Errno 2] No such file or directory: '" +:+ path +:+ "'"
  | CollaboratorError what => what
  end.

(** The value under [key] in the items of a dictionary. *)
Fixpoint lookup_item (key : string) (d : list (string * PyValue)) : option PyValue :=
  match d with
  | [] => None
  | (k, v) :: d' => if decide (key = k) then Some v else lookup_item key d'
  end.

(** [d[key]] *)
Definition getitem (d : list (string * PyValue)) (key : string) : M PyValue :=
  match lookup_item key d with
  | Some v => ret v
  | None => raise (KeyError key)
  end.

(** [type(v).__name__] *)
Definition type_name (v : PyValue) : string :=
  match v with
  | PyNone => "NoneType"
  | PyBool _ => "bool"
  | PyInt _ => "int"
  | PyStr _ => "str"
  | PyList _ => "list"
  | PyDict _ => "dict"
  end.

(** [len(v)] *)
Definition len (v : PyValue) : M Z :=
  match v with
  | PyStr s => ret (Z.of_nat (String.length s))
  | PyList l => ret (Z.of_nat (length l))
  | PyDict d => ret (Z.of_nat (length d))
  | _ => raise (TypeError ("object of type '" +:+ type_name v +:+ "' has no len()"))
  end.

Module RecorderReads.
Section Methods.
Variable env : Collaborators.
Variable reads : StatusReads.

(** [ContextRecorder.get_status] *)
Definition get_status (recorder_id : string) : M PyValue :=
  s ← get_self;
  if negb (Dict.contains recorder_id (recorders s)) then
    ret (PyDict [("is_recording", PyBool false);
                 ("message", PyStr ("Recorder " +:+ recorder_id +:+ " not found"))])
  else
    config ← Recorder.getitem_recorders recorder_id;
    if negb (RecorderConfig.is_recording config) then
      ret (PyDict [("is_recording", PyBool false);
                   ("message", PyStr "Not recording")])
    else
      try_except
        (config ← Recorder.getitem_recorders recorder_id;
         let video_stream := RecorderConfig.video_stream config in
         let transcription_pipeline := RecorderConfig.transcription_pipeline config in
         video_status ← answered (on_get_buffer_status reads video_stream);
         pipeline_status ←
           answered (on_get_pipeline_status reads transcription_pipeline);
         integrator_status ← answered (on_get_context_status reads);
         video_clips ← getitem video_status "clip_count";
         buffer_duration ← getitem video_status "buffer_duration";
         processed_clips ← getitem pipeline_status "total_clips_processed";
         context_clips ← getitem integrator_status "total_clips_processed";
         session_duration ← getitem integrator_status "session_duration_seconds";
         speakers ← getitem integrator_status "speakers_identified";
         speakers_identified ← len speakers;
         ret (PyDict [("is_recording", PyBool true);
                      ("video_clips", video_clips);
                      ("buffer_duration", buffer_duration);
                      ("processed_clips", processed_clips);
                      ("context_clips", context_clips);
                      ("session_duration", session_duration);
                      ("speakers_identified", PyInt speakers_identified)]))
        (fun e =>
           s ← get_self;
           ret (PyDict [("is_recording", PyBool (is_recording s));
                        ("error", PyStr (exn_str e))])).

(** [ContextRecorder.get_current_context] *)
Definition get_current_context : M PyValue :=
  s ← get_self;
  if negb (is_recording s) then ret (PyStr "No recording in progress")
  else
    try_except
      (invoke get_current_context (on_get_current_context env) went_through)
      (fun e => ret (PyStr ("Error getting context: " +:+ exn_str e))).

(** [ContextRecorder.export_session_summary] *)
Definition export_session_summary : M PyValue :=
  s ← get_self;
  if negb (is_recording s) then ret (PyStr "No recording session to export")
  else
    try_except
      (answered (on_export_session_summary reads))
      (fun e => ret (PyStr ("Error exporting session: " +:+ exn_str e))).
End Methods.
End RecorderReads.

(** Whether [d[key]] finds an entry, and whether [len(v)] has an answer. *)
Definition has_item (key : string) (d : list (string * PyValue)) : bool :=
  match lookup_item key d with Some _ => true | None => false end.

Definition has_len (v : PyValue) : bool :=
  match v with
  | PyStr _ | PyList _ | PyDict _ => true
  | _ => false
  end.

(** Whether every status read of [get_status] goes through for a
    session: the three collaborators answer, the six entries subscripted
    are there, and what is under ['speakers_identified'] has a length. *)
Definition status_reads_answer (reads : StatusReads) (config : RecorderConfig.t)
  : bool :=
  match on_get_buffer_status reads (RecorderConfig.video_stream config),
        on_get_pipeline_status reads (RecorderConfig.transcription_pipeline config),
        on_get_context_status reads with
  | Return video, Return pipeline, Return integrator =>
      has_item "clip_count" video &&
      has_item "buffer_duration" video &&
      has_item "total_clips_processed" pipeline &&
      has_item "total_clips_processed" integrator &&
      has_item "session_duration_seconds" integrator &&
      match lookup_item "speakers_identified" integrator with
      | Some speakers => has_len speakers
      | None => false
      end
  | _, _, _ => false
  end.

(** *** Status answers used in the examples *)

(** A capture buffer, an analysis pipeline and an integrator that all
    answer, with two speakers heard so far. *)
Definition reads_fine : StatusReads := {|
  on_get_buffer_status := fun _ =>
    Return [("clip_count", PyInt 4); ("buffer_duration", PyInt 30)];
  on_get_pipeline_status := fun _ =>
    Return [("total_clips_processed", PyInt 3)];
  on_get_context_status :=
    Return [("total_clips_processed", PyInt 3);
            ("session_duration_seconds", PyInt 20);
            ("speakers_identified", PyList [PyStr "A"; PyStr "B"])];
  on_export_session_summary := Return (PyStr "summary")
|}.

(** The analysis pipeline does not answer. *)
Definition pipeline_read_fails : StatusReads := {|
  on_get_buffer_status := fun _ =>
    Return [("clip_count", PyInt 4); ("buffer_duration", PyInt 30)];
  on_get_pipeline_status := fun _ => Raise (CollaboratorError "pipeline gone");
  on_get_context_status :=
    Return [("total_clips_processed", PyInt 3);
            ("session_duration_seconds", PyInt 20);
            ("speakers_identified", PyList [PyStr "A"; PyStr "B"])];
  on_export_session_summary := Raise (CollaboratorError "no summary")
|}.

(** *** More collaborator scripts used in the examples *)

(** The capture factory raises. *)
Definition factory_fails : Collaborators := {|
  on_VideoStream_create := fun _ => Raise (CollaboratorError "no display");
  on_create_transcription_pipeline := fun _ => Return tt;
  on_start_stream := fun _ _ => Return true;
  on_start_pipeline := fun _ _ _ => Return tt;
  on_start_integrator := fun _ => Return tt;
  on_stop_pipeline := fun _ => Return tt;
  on_stop_stream := fun _ => Return tt;
  on_get_current_context := Return (PyStr "editing recorder.py");
  on_json_dumps := fun _ => Return "{}";
  on_str := fun _ => Return "None";
  on_write_text := fun _ _ => Return tt;
  left_by_failed_write := fun _ _ => None;
  on_mkdir_cache_dir := fun _ => Return tt;
  on_mkdir_recordings_dir := Return tt;
  on_create_context_integrator := fun _ => Return tt;
  on_set_callback := Return tt
|}.

(** Stopping the analysis pipeline raises. *)
Definition stop_pipeline_fails : Collaborators := {|
  on_VideoStream_create := fun _ => Return tt;
  on_create_transcription_pipeline := fun _ => Return tt;
  on_start_stream := fun _ _ => Return true;
  on_start_pipeline := fun _ _ _ => Return tt;
  on_start_integrator := fun _ => Return tt;
  on_stop_pipeline := fun _ => Raise (CollaboratorError "hung");
  on_stop_stream := fun _ => Return tt;
  on_get_current_context := Return (PyStr "editing recorder.py");
  on_json_dumps := fun _ => Return "{}";
  on_str := fun _ => Return "None";
  on_write_text := fun _ _ => Return tt;
  left_by_failed_write := fun _ _ => None;
  on_mkdir_cache_dir := fun _ => Return tt;
  on_mkdir_recordings_dir := Return tt;
  on_create_context_integrator := fun _ => Return tt;
  on_set_callback := Return tt
|}.

(** The integrator cannot be read. *)
Definition context_read_fails : Collaborators := {|
  on_VideoStream_create := fun _ => Return tt;
  on_create_transcription_pipeline := fun _ => Return tt;
  on_start_stream := fun _ _ => Return true;
  on_start_pipeline := fun _ _ _ => Return tt;
  on_start_integrator := fun _ => Return tt;
  on_stop_pipeline := fun _ => Return tt;
  on_stop_stream := fun _ => Return tt;
  on_get_current_context := Raise (CollaboratorError "integrator busy");
  on_json_dumps := fun _ => Return "{}";
  on_str := fun _ => Return "None";
  on_write_text := fun _ _ => Return tt;
  left_by_failed_write := fun _ _ => None;
  on_mkdir_cache_dir := fun _ => Return tt;
  on_mkdir_recordings_dir := Return tt;
  on_create_context_integrator := fun _ => Return tt;
  on_set_callback := Return tt
|}.

(** The integrator holds other text than in [all_fine]. *)
Definition later_context : Collaborators := {|
  on_VideoStream_create := fun _ => Return tt;
  on_create_transcription_pipeline := fun _ => Return tt;
  on_start_stream := fun _ _ => Return true;
  on_start_pipeline := fun _ _ _ => Return tt;
  on_start_integrator := fun _ => Return tt;
  on_stop_pipeline := fun _ => Return tt;
  on_stop_stream := fun _ => Return tt;
  on_get_current_context := Return (PyStr "running the tests");
  on_json_dumps := fun _ => Return "{}";
  on_str := fun _ => Return "None";
  on_write_text := fun _ _ => Return tt;
  left_by_failed_write := fun _ _ => None;
  on_mkdir_cache_dir := fun _ => Return tt;
  on_mkdir_recordings_dir := Return tt;
  on_create_context_integrator := fun _ => Return tt;
  on_set_callback := Return tt
|}.

(** Two sessions whose stops failed during a [shutdown]: still flagged
    active, with the counter at 0 and the global flag off. *)
Definition shut_down_in_vain : World :=
  run [Shutdown stop_stream_fails] two_recording.

Ltac run_reads :=
  cbv [mbind M_bind bind ret raise try_except get_self answered getitem len
       invoke went_through Recorder.getitem_recorders];
  cbn [fst snd self files calls].

(** A date [datetime] can hold. *)
Definition valid_date (d : datetime) : Prop :=
  1 <= year d <= 9999 /\ 1 <= month d <= 12 /\ 1 <= day d <= 31.

(** The text of a cache with two sessions in it, and a world in which
    the readers' file holds it. *)
Definition two_sessions_text : string :=
  "NEW RECORDING SESSION 09:00" +:+ String newline "typing" +:+
  String newline "NEW RECORDING SESSION 10:30" +:+ String newline "reading".

Definition two_sessions_world : World :=
  fresh_world None "/home/u/.cache/inframe/04072025"
    {[ "/home/u/.cache/inframe/04072025" := Text two_sessions_text ]}.

(** The record [main_async] files for the session it creates. *)
Definition cli_config (uuid : string) (args : Args.t) : RecorderConfig.t :=
  RecorderConfig.mk (Some (Args.include_apps args)) (Args.recording_mode args)
    (Some (Args.visual_task args)) uuid uuid false.

(** Whether the two factories answer for [uuid]. *)
Definition factories_answer (env : Collaborators) (uuid : string) : bool :=
  returned (on_VideoStream_create env uuid) &&
  returned (on_create_transcription_pipeline env uuid).

(** Whether the three start calls of the session of [main_async] go
    through. *)
Definition cli_start_goes_through (env : Collaborators) (uuid : string)
  (args : Args.t) : Prop :=
  on_start_stream env uuid (Args.recording_mode args) = Return true /\
  on_start_pipeline env uuid uuid (Some (Args.visual_task args)) = Return tt /\
  on_start_integrator env uuid = Return tt.

(** ** [examples/simple_agent.py]: class [SimpleAgent] *)

(** [Exception(msg)], of which only the message is kept. *)
Definition PyException (msg : string) : exn := CollaboratorError msg.

(** Calls into the query engine ([ContextQuery], whose code is not among
    the sources), what it answers, and the log of the calls made. *)
Inductive query_call :=
| add_query (prompt callback : string) (interval_seconds : Z)
| query_start (query_id : string)
| query_stop (query_id : string)
| query_shutdown.

Record query_event := QEv { qev_call : query_call; qev_ok : bool }.

Record QueryAnswers := {
  on_add_query : string -> string -> Z -> result string;
  on_query_start : string -> result unit;
  on_query_stop : string -> result unit;
  on_query_shutdown : result unit
}.

Module SimpleAgent.

(** The attributes of the agent that are its own. *)
Record t := mk {
  recorder_id : option string;
  ide_query_id : option string;
  directory_query_id : option string;
  _cleanup_done : bool
}.

(** The agent, the world of its recorder, and the calls made to its
    query engine. *)
Record AgentWorld := mkAgentWorld {
  agent : t;
  recorder : World;
  query_calls : list query_event
}.

(** The monad of [M] with the agent added to the state. *)
Definition AgentM (A : Type) : Type := AgentWorld -> result A * AgentWorld.

Definition agent_ret {A} (a : A) : AgentM A := fun aw => (Return a, aw).

Definition agent_bind {A B} (m : AgentM A) (k : A -> AgentM B) : AgentM B :=
  fun aw =>
    match m aw with
    | (Return a, aw') => k a aw'
    | (Raise e, aw') => (Raise e, aw')
    end.

#[global] Instance AgentM_ret : MRet AgentM := @agent_ret.
#[global] Instance AgentM_bind : MBind AgentM := fun A B k m => agent_bind m k.

Definition agent_raise {A} (e : exn) : AgentM A := fun aw => (Raise e, aw).

(** A method of the recorder, run on the recorder of the agent. *)
Definition on_recorder {A} (m : M A) : AgentM A :=
  fun aw =>
    let (r, w') := m (recorder aw) in
    (r, mkAgentWorld (agent aw) w' (query_calls aw)).

(** A call to the query engine: log it, then return or raise what it
    answers. *)
Definition ask_query {A} (c : query_call) (answer : result A) : AgentM A :=
  fun aw =>
    (answer,
     mkAgentWorld (agent aw) (recorder aw)
       (query_calls aw ++ [QEv c (returned answer)])).

Definition get_agent : AgentM t := fun aw => (Return (agent aw), aw).

Definition modify_agent (f : t -> t) : AgentM unit :=
  fun aw => (Return tt, mkAgentWorld (f (agent aw)) (recorder aw) (query_calls aw)).

Definition set_recorder_id (v : option string) (a : t) : t :=
  mk v (ide_query_id a) (directory_query_id a) (_cleanup_done a).

Definition set_ide_query_id (v : option string) (a : t) : t :=
  mk (recorder_id a) v (directory_query_id a) (_cleanup_done a).

Definition set_directory_query_id (v : option string) (a : t) : t :=
  mk (recorder_id a) (ide_query_id a) v (_cleanup_done a).

Definition set_cleanup_done (v : bool) (a : t) : t :=
  mk (recorder_id a) (ide_query_id a) (directory_query_id a) v.

(** The agent [SimpleAgent.__init__] makes when the constructors of its
    recorder and of its query engine return: a recorder on the default
    cache path, nothing created yet. *)
Definition __init__ (home : string) (openai_api_key : string)
  (fs : gmap string file) : AgentWorld :=
  mkAgentWorld (mk None None None false)
    (mkWorld (Recorder.__init__ (Some openai_api_key) (path_join home ".cache/inframe"))
       fs [])
    [].

Definition include_apps : list string :=
  ["Visual Studio Code"; "Cursor"; "PyCharm"; "IntelliJ IDEA"].

Definition visual_task : string :=
  "Describe the screen content focusing on: " +:+
  "1. Application names and window titles " +:+
  "2. File explorer panels and folder names " +:+
  "3. File names and directory structures " +:+
  "4. UI elements like buttons, tabs, and panels " +:+
  "5. The current file path and file name" +:+
  "Be specific about folder names and project structure.".

Definition ide_prompt : string :=
  "Look at the screen content and determine if a coding IDE (like VS Code, Cursor, PyCharm, " +:+
  "IntelliJ IDEA, Sublime Text, Atom, etc.) is currently visible and being used. " +:+
  "Respond with YES or NO.".

Definition directory_prompt : string :=
  "Look at the screen and identify the file the user is working on. " +:+
  "Look specifically for: " +:+
  "1. The file name in the file explorer hierarchy " +:+
  "2. The file name in the window title bar " +:+
  "DO NOT infer from file names or content - find the actual folder name displayed. " +:+
  "DO NOT use placeholder text like 'actual_folder_name_here' - use the real folder name you see. " +:+
  "Respond with the folder name only, no other text.".

Section Methods.
Variable env : Collaborators.
Variable query : QueryAnswers.

(** [SimpleAgent.post_init]; [uuid] is the identifier [add_recorder]
    draws.  ([start] is given [self.recorder_id]; were it still [None], a
    key no session is filed under, [start] would answer [False].) *)
Definition post_init (uuid : string) : AgentM unit :=
  new_id ←
    on_recorder (Recorder.add_recorder env uuid (Some include_apps) full_screen
                   (Some visual_task));
  modify_agent (set_recorder_id (Some new_id));;
  a ← get_agent;
  success ←
    on_recorder
      (match recorder_id a with
       | Some id => Recorder.start env id
       | None => ret false
       end);
  if negb success then agent_raise (PyException "Failed to start recorder")
  else
    ide ← ask_query (add_query ide_prompt "on_ide_detected" 3)
            (on_add_query query ide_prompt "on_ide_detected" 3);
    modify_agent (set_ide_query_id (Some ide));;
    directory ← ask_query (add_query directory_prompt "on_directory_detected" 3)
                  (on_add_query query directory_prompt "on_directory_detected" 3);
    modify_agent (set_directory_query_id (Some directory));;
    ask_query (query_start ide) (on_query_start query ide).

(** [SimpleAgent.graceful_shutdown] *)
Definition graceful_shutdown : AgentM unit :=
  a ← get_agent;
  if _cleanup_done a then mret tt
  else
    modify_agent (set_cleanup_done true);;
    ask_query query_shutdown (on_query_shutdown query);;
    on_recorder (Recorder.shutdown env).

(** [SimpleAgent.stop_session] *)
Definition stop_session : AgentM unit := graceful_shutdown.
End Methods.

End SimpleAgent.

(** *** Query engines used in the examples *)

Definition query_fine : QueryAnswers := {|
  on_add_query := fun _ callback _ => Return ("query:" +:+ callback);
  on_query_start := fun _ => Return tt;
  on_query_stop := fun _ => Return tt;
  on_query_shutdown := Return tt
|}.

(** Shutting the query engine down raises. *)
Definition query_shutdown_fails : QueryAnswers := {|
  on_add_query := fun _ callback _ => Return ("query:" +:+ callback);
  on_query_start := fun _ => Return tt;
  on_query_stop := fun _ => Return tt;
  on_query_shutdown := Raise (CollaboratorError "task still running")
|}.

(** An agent just built. *)
Definition new_agent : SimpleAgent.AgentWorld :=
  SimpleAgent.__init__ "/home/u" "sk-test" ∅.

(** The same agent after [post_init]. *)
Definition running_agent : SimpleAgent.AgentWorld :=
  snd (SimpleAgent.post_init all_fine query_fine "rec-1" new_agent).

Ltac run_agent :=
  cbv [mbind mret SimpleAgent.AgentM_bind SimpleAgent.AgentM_ret
       SimpleAgent.agent_bind SimpleAgent.agent_ret SimpleAgent.agent_raise
       SimpleAgent.on_recorder SimpleAgent.ask_query SimpleAgent.get_agent
       SimpleAgent.modify_agent SimpleAgent.set_recorder_id
       SimpleAgent.set_ide_query_id SimpleAgent.set_directory_query_id
       SimpleAgent.set_cleanup_done];
  cbn [fst snd negb SimpleAgent.agent SimpleAgent.recorder SimpleAgent.query_calls
       SimpleAgent.recorder_id SimpleAgent.ide_query_id
       SimpleAgent.directory_query_id SimpleAgent._cleanup_done].

(** ** Tactics running the monad *)

Ltac run_py :=
  cbv [mbind M_bind bind ret raise try_except get_self get_files modify_self
       modify_files invoke went_through exec eval
       Recorder.getitem_recorders Recorder.setattr_is_recording
       Recorder.with_recorders Recorder.with_is_recording
       Recorder.with_active_recorders Recorder.Path_write_text];
  cbn [fst snd self files calls].

Ltac step_py :=
  cbv beta iota zeta;
  cbn [fst snd self files calls negb id
       openai_api_key is_recording cache_file recorders active_recorders].


(** * Properties *)

(** ** Dictionaries *)

Section DictFacts.
Context {V : Type}.
Implicit Types (d : Dict.t V) (k : string) (v : V).

Lemma get_set_eq d k v : Dict.get k (Dict.set k v d) = Some v.
Proof.
  induction d as [|[k' v'] d IH]; simpl.
  - by rewrite decide_True.
  - destruct (decide (k = k')) as [->|Hne]; simpl.
    + by rewrite decide_True.
    + by rewrite decide_False.
Qed.

Lemma get_set_ne d k k' v : k <> k' -> Dict.get k' (Dict.set k v d) = Dict.get k' d.
Proof.
  intros Hne. induction d as [|[k0 v0] d IH]; simpl.
  - by rewrite decide_False.
  - destruct (decide (k = k0)) as [->|Hk]; simpl.
    + by rewrite !decide_False.
    + by rewrite IH.
Qed.

Lemma keys_set_known d k v v0 :
  Dict.get k d = Some v0 -> Dict.keys (Dict.set k v d) = Dict.keys d.
Proof.
  induction d as [|[k' v'] d IH]; simpl; [done|].
  destruct (decide (k = k')) as [->|Hne]; simpl; [done|].
  intros H. unfold Dict.keys in *. simpl. f_equal. by apply IH.
Qed.

Lemma get_known_key d k : k ∈ Dict.keys d -> is_Some (Dict.get k d).
Proof.
  induction d as [|[k' v'] d IH]; simpl.
  - by intros ?%elem_of_nil.
  - intros [->|Hin]%elem_of_cons.
    + rewrite decide_True; eauto.
    + destruct (decide (k = k')); eauto.
Qed.

Lemma key_of_get d k v : Dict.get k d = Some v -> k ∈ Dict.keys d.
Proof.
  induction d as [|[k' v'] d IH]; simpl; [done|].
  destruct (decide (k = k')) as [->|Hne].
  - intros _. apply elem_of_cons. by left.
  - intros H. apply elem_of_cons. right. by apply IH.
Qed.
End DictFacts.

Lemma count_active_set_known (d : Dict.t RecorderConfig.t) k c c0 :
  Dict.get k d = Some c0 ->
  count_active (Dict.set k c d) =
  count_active d
  - (if RecorderConfig.is_recording c0 then 1 else 0)
  + (if RecorderConfig.is_recording c then 1 else 0).
Proof.
  induction d as [|[k' v'] d IH]; simpl; [done|].
  destruct (decide (k = k')) as [->|Hne]; simpl.
  - intros [= ->]. lia.
  - intros H. rewrite (IH H). lia.
Qed.

Lemma count_active_set_fresh (d : Dict.t RecorderConfig.t) k c :
  Dict.get k d = None ->
  count_active (Dict.set k c d) =
  count_active d + (if RecorderConfig.is_recording c then 1 else 0).
Proof.
  induction d as [|[k' v'] d IH]; simpl; [lia|].
  destruct (decide (k = k')) as [->|Hne]; simpl; [done|].
  intros H. rewrite (IH H). lia.
Qed.

Lemma count_active_nonneg (d : Dict.t RecorderConfig.t) : 0 <= count_active d.
Proof.
  induction d as [|[k v] d IH]; simpl; [lia|].
  destruct (RecorderConfig.is_recording v); lia.
Qed.


Lemma contains_known {V} (d : Dict.t V) k v :
  Dict.get k d = Some v -> Dict.contains k d = true.
Proof. unfold Dict.contains. by intros ->. Qed.

Lemma capture_started_app h log log' :
  capture_started h (log ++ log') = fold_left (capture_step h) log' (capture_started h log).
Proof. unfold capture_started. apply fold_left_app. Qed.

Lemma analysis_started_app h log log' :
  analysis_started h (log ++ log') = fold_left (analysis_step h) log' (analysis_started h log).
Proof. unfold analysis_started. apply fold_left_app. Qed.

(** ** Starting a session *)

(** The two ways a [start] on a known session can end. *)
Lemma start_known env recorder_id config w :
  Dict.get recorder_id (recorders (self w)) = Some config ->
  Recorder.start env recorder_id w =
    (Return true, mkWorld (started recorder_id config (self w)) (files w)
                    (calls w ++ started_calls config)) \/
  exists made,
    made ∈ failed_start_calls config /\
    Recorder.start env recorder_id w =
      (Return false, mkWorld (self w) (files w) (calls w ++ made)).
Proof.
  intros Hget. unfold Recorder.start. run_py.
  rewrite (contains_known _ _ _ Hget). step_py. rewrite Hget. step_py.
  unfold failed_start_calls, started_calls.
  destruct (on_start_stream env _ _) as [[|]|e1]; step_py.
  2,3: right; eexists; split; [|done];
       apply elem_of_cons; by left.
  destruct (on_start_pipeline env _ _ _) as [[]|e2]; step_py.
  2: right; eexists; split; [|by rewrite <- app_assoc];
     apply elem_of_cons; right; apply elem_of_cons; by left.
  destruct (on_start_integrator env _) as [[]|e3]; step_py.
  2: right; eexists; split; [|by rewrite <- !app_assoc];
     do 2 (apply elem_of_cons; right); apply elem_of_cons; by left.
  left. rewrite Hget. by rewrite <- !app_assoc.
Qed.

(** A [start] whose capture stream does not come up makes no other
    call. *)
Lemma start_capture_refused env recorder_id config w :
  Dict.get recorder_id (recorders (self w)) = Some config ->
  on_start_stream env (RecorderConfig.video_stream config)
    (RecorderConfig.recording_mode config) <> Return true ->
  Recorder.start env recorder_id w =
  (Return false,
   mkWorld (self w) (files w)
     (calls w ++ [Ev (start_stream (RecorderConfig.video_stream config)
                        (RecorderConfig.recording_mode config)) false])).
Proof.
  intros Hget Hrefused. unfold Recorder.start. run_py.
  rewrite (contains_known _ _ _ Hget). step_py. rewrite Hget. step_py.
  by destruct (on_start_stream env _ _) as [[|]|e1]; step_py.
Qed.

(** C1, as amended.  On a session the registry knows, [start] never
    raises.  When it answers [True], the three start calls (capture,
    analysis, integrator, in this order) all went through before anything
    was flagged, and afterwards the session is active, the global flag is
    set and the counter is one higher.  When it answers [False], the
    recorder object is exactly what it was (every active flag, the counter
    and the global flag), so a session that was inactive still is; and when
    it was the capture start that did not go through, no other call was
    made and the capture handle is in the state it was in. *)
Theorem start_commits_after_all_three env recorder_id config w :
  Dict.get recorder_id (recorders (self w)) = Some config ->
  let w' := exec (Recorder.start env recorder_id) w in
  let capture :=
    start_stream (RecorderConfig.video_stream config)
      (RecorderConfig.recording_mode config) in
  (exists b, eval (Recorder.start env recorder_id) w = Return b) /\
  (eval (Recorder.start env recorder_id) w = Return true ->
     calls w' = calls w ++ started_calls config /\
     session_active recorder_id w' = true /\
     is_recording (self w') = true /\
     active_recorders (self w') = active_recorders (self w) + 1 /\
     capture_started (RecorderConfig.video_stream config) (calls w') = true /\
     analysis_started (RecorderConfig.transcription_pipeline config) (calls w') = true) /\
  (eval (Recorder.start env recorder_id) w = Return false ->
     self w' = self w /\
     session_active recorder_id w' = session_active recorder_id w /\
     (RecorderConfig.is_recording config = false ->
      session_active recorder_id w' = false) /\
     (on_start_stream env (RecorderConfig.video_stream config)
        (RecorderConfig.recording_mode config) <> Return true ->
      calls w' = calls w ++ [Ev capture false] /\
      capture_started (RecorderConfig.video_stream config) (calls w') =
      capture_started (RecorderConfig.video_stream config) (calls w))).
Proof.
  intros Hget. unfold exec, eval.
  destruct (start_known env recorder_id config w Hget) as [Hrun|(made & Hmade & Hrun)].
  - rewrite Hrun. cbn [fst snd self calls].
    split; [eauto|]. split; [|done]. intros _.
    split; [done|].
    split. { unfold session_active, started. cbn. by rewrite get_set_eq. }
    split; [done|]. split; [done|].
    rewrite capture_started_app, analysis_started_app.
    cbn. unfold capture_step, analysis_step. cbn.
    rewrite !decide_True by done. cbn. by rewrite !orb_true_r.
  - split; [rewrite Hrun; eauto|]. split; [by rewrite Hrun|]. intros _.
    split; [by rewrite Hrun|]. split; [by rewrite Hrun|]. split.
    + intros Hoff. rewrite Hrun. unfold session_active. cbn. by rewrite Hget.
    + intros Hrefused.
      rewrite (start_capture_refused env recorder_id config w Hget Hrefused).
      cbn [snd calls]. split; [done|].
      rewrite capture_started_app. cbn. unfold capture_step. cbn.
      rewrite decide_True by done. by rewrite orb_false_r.
Qed.

(** A failed [start] on a session that is already active leaves it
    flagged active. *)
Lemma failed_restart_keeps_flag :
  eval (Recorder.start capture_fails "rec-1") one_recording = Return false /\
  session_active "rec-1" (exec (Recorder.start capture_fails "rec-1") one_recording)
    = true.
Proof. split; reflexivity. Qed.

(** C1, as stated, fails: when the analysis pipeline refuses to start,
    [start] answers [False] and the capture stream it had started is left
    running (no [stop_stream] call is made). *)
Lemma start_leaves_capture_running :
  ~ start_leaves_all_or_nothing analysis_fails "rec-1" one_session.
Proof.
  intros H. specialize (H rec1_config eq_refl).
  vm_compute in H. destruct H as (_ & H & _). discriminate H.
Qed.

Lemma start_commits_after_all_three_witness :
  Dict.get "rec-1" (recorders (self one_session)) = Some rec1_config /\
  session_active "rec-1" (exec (Recorder.start all_fine "rec-1") one_session) = true /\
  self (exec (Recorder.start capture_fails "rec-1") one_session) = self one_session.
Proof.
  split; [reflexivity|]. split.
  - apply (start_commits_after_all_three all_fine "rec-1" rec1_config one_session);
      reflexivity.
  - apply (start_commits_after_all_three capture_fails "rec-1" rec1_config one_session);
      reflexivity.
Defined.

(** [start] on an identifier the registry does not know answers [False]
    and touches nothing. *)
Lemma start_unknown env recorder_id w :
  Dict.get recorder_id (recorders (self w)) = None ->
  Recorder.start env recorder_id w = (Return false, w).
Proof.
  intros Hget. unfold Recorder.start, Dict.contains. run_py. by rewrite Hget.
Qed.

(** ** Stopping a session *)

Lemma stop_unknown env recorder_id w :
  Dict.get recorder_id (recorders (self w)) = None ->
  Recorder.stop env recorder_id w = (Raise (KeyError recorder_id), w).
Proof. intros Hget. unfold Recorder.stop. run_py. by rewrite Hget. Qed.

Lemma stop_inactive env recorder_id config w :
  Dict.get recorder_id (recorders (self w)) = Some config ->
  RecorderConfig.is_recording config = false ->
  Recorder.stop env recorder_id w = (Return tt, w).
Proof.
  intros Hget Hoff. unfold Recorder.stop. run_py. rewrite Hget. step_py.
  by rewrite Hoff.
Qed.

Lemma stop_fails env recorder_id config w :
  Dict.get recorder_id (recorders (self w)) = Some config ->
  RecorderConfig.is_recording config = true ->
  stops_go_through env config = false ->
  Recorder.stop env recorder_id w =
  (Return tt, mkWorld (self w) (files w) (calls w ++ stop_calls env config)).
Proof.
  intros Hget Hon Hfail. unfold Recorder.stop, stops_go_through, stop_calls in *.
  run_py. rewrite Hget. step_py. rewrite Hon. step_py. rewrite Hget. step_py.
  destruct (on_stop_pipeline env _) as [[]|e1]; step_py; [|done].
  destruct (on_stop_stream env _) as [[]|e2]; step_py; [done|].
  by rewrite <- app_assoc.
Qed.

Lemma stop_succeeds env recorder_id config w :
  Dict.get recorder_id (recorders (self w)) = Some config ->
  RecorderConfig.is_recording config = true ->
  stops_go_through env config = true ->
  Recorder.stop env recorder_id w =
  (Return tt, mkWorld (stopped recorder_id config (self w)) (files w)
                (calls w ++ stop_calls env config)).
Proof.
  intros Hget Hon Hok. unfold Recorder.stop, stops_go_through, stop_calls in *.
  run_py. rewrite Hget. step_py. rewrite Hon. step_py. rewrite Hget. step_py.
  destruct (on_stop_pipeline env _) as [[]|e1]; [|done]. step_py.
  destruct (on_stop_stream env _) as [[]|e2]; [|done]. step_py.
  rewrite Hget. unfold stopped. rewrite <- app_assoc.
  by destruct (active_recorders (self w) - 1 =? 0).
Qed.

(** C2, at an identifier the registry does not know: [stop] raises
    [KeyError] instead of returning (the registry itself is left as it
    was). *)
Theorem stop_unknown_raises_KeyError :
  Recorder.stop all_fine "no-such-recorder" one_recording =
  (Raise (KeyError "no-such-recorder"), one_recording).
Proof. reflexivity. Qed.

(** The part of C2 that holds: on a known, inactive session [stop] is a
    no-op, so a second [stop] after one that went through changes
    nothing. *)
Lemma stop_twice env env' recorder_id config w :
  Dict.get recorder_id (recorders (self w)) = Some config ->
  RecorderConfig.is_recording config = true ->
  stops_go_through env config = true ->
  Recorder.stop env' recorder_id (exec (Recorder.stop env recorder_id) w) =
  (Return tt, exec (Recorder.stop env recorder_id) w).
Proof.
  intros Hget Hon Hok. unfold exec. rewrite (stop_succeeds _ _ _ _ Hget Hon Hok).
  cbn [snd]. eapply stop_inactive.
  - cbn. apply get_set_eq.
  - done.
Qed.

(** C10.  When a stop call of an active session raises, [stop] still
    returns normally, and the recorder object is exactly what it was: the
    session is still flagged active, the counter and the global flag are
    unchanged. *)
Theorem failed_stop_leaves_session_active env recorder_id config w :
  Dict.get recorder_id (recorders (self w)) = Some config ->
  RecorderConfig.is_recording config = true ->
  stops_go_through env config = false ->
  let w' := exec (Recorder.stop env recorder_id) w in
  eval (Recorder.stop env recorder_id) w = Return tt /\
  session_active recorder_id w' = true /\
  active_recorders (self w') = active_recorders (self w) /\
  is_recording (self w') = is_recording (self w) /\
  self w' = self w.
Proof.
  intros Hget Hon Hfail. unfold exec, eval.
  rewrite (stop_fails _ _ _ _ Hget Hon Hfail). cbn [fst snd self].
  repeat split. unfold session_active. cbn [self]. by rewrite Hget.
Qed.

Lemma failed_stop_leaves_session_active_witness :
  Dict.get "rec-1" (recorders (self one_recording))
    = Some (RecorderConfig.set_is_recording true rec1_config) /\
  stops_go_through stop_stream_fails (RecorderConfig.set_is_recording true rec1_config)
    = false /\
  session_active "rec-1" (exec (Recorder.stop stop_stream_fails "rec-1") one_recording)
    = true.
Proof.
  split; [reflexivity|]. split; [reflexivity|].
  apply (failed_stop_leaves_session_active stop_stream_fails "rec-1"
           (RecorderConfig.set_is_recording true rec1_config) one_recording);
    reflexivity.
Defined.

(** ** Shutting down *)

Lemma shutdown_unfold env w :
  Recorder.shutdown env w =
  (for_each (Dict.keys (recorders (self w))) (shutdown_turn env);;
   modify_self (Recorder.with_is_recording false);;
   modify_self (Recorder.with_active_recorders 0)) w.
Proof. reflexivity. Qed.

Lemma stop_attempt_logged env config :
  stop_attempt env config ∈ stop_calls env config.
Proof.
  unfold stop_attempt, stop_calls.
  destruct (on_stop_pipeline env _); cbn; set_solver.
Qed.

Lemma get_stopped recorder_id config s k :
  Dict.get k (recorders (stopped recorder_id config s)) =
  if decide (recorder_id = k)
  then Some (RecorderConfig.set_is_recording false config)
  else Dict.get k (recorders s).
Proof.
  unfold stopped. cbn [recorders].
  destruct (decide (recorder_id = k)) as [->|Hne].
  - apply get_set_eq.
  - by apply get_set_ne.
Qed.

(** What one turn of the loop does to a known session. *)
Lemma shutdown_turn_spec env k ck w :
  Dict.get k (recorders (self w)) = Some ck ->
  exists w1,
    shutdown_turn env k w = (Return tt, w1) /\
    files w1 = files w /\
    ((RecorderConfig.is_recording ck = false /\ w1 = w) \/
     (RecorderConfig.is_recording ck = true /\
      calls w1 = calls w ++ stop_calls env ck /\
      ((stops_go_through env ck = false /\ self w1 = self w) \/
       (stops_go_through env ck = true /\ self w1 = stopped k ck (self w))))).
Proof.
  intros Hget. unfold shutdown_turn.
  cbv [mbind M_bind bind Recorder.getitem_recorders get_self try_except ret raise].
  rewrite Hget. step_py.
  destruct (RecorderConfig.is_recording ck) eqn:Hon.
  - destruct (stops_go_through env ck) eqn:Hok.
    + rewrite (stop_succeeds _ _ _ _ Hget Hon Hok).
      eexists; split; [done|]. cbn. split; [done|]. right. eauto.
    + rewrite (stop_fails _ _ _ _ Hget Hon Hok).
      eexists; split; [done|]. cbn. split; [done|]. right. eauto.
  - eexists; split; [done|]. split; [done|]. by left.
Qed.

(** The loop of [shutdown] over a list of known identifiers: it runs to
    its end whatever the stop calls answer, keeps the keys, never turns an
    active flag on, attempts the stop of every listed session that is
    active, and leaves inactive each of them whose stop calls go through. *)
Lemma shutdown_loop_spec env ks : forall w,
  (forall k, k ∈ ks -> is_Some (Dict.get k (recorders (self w)))) ->
  exists w',
    for_each ks (shutdown_turn env) w = (Return tt, w') /\
    files w' = files w /\
    cache_file (self w') = cache_file (self w) /\
    Dict.keys (recorders (self w')) = Dict.keys (recorders (self w)) /\
    (forall k, session_active k w = false -> session_active k w' = false) /\
    (exists more, calls w' = calls w ++ more) /\
    (forall k ck,
        k ∈ ks ->
        Dict.get k (recorders (self w)) = Some ck ->
        RecorderConfig.is_recording ck = true ->
        stop_attempt env ck ∈ calls w' /\
        (stops_go_through env ck = true -> session_active k w' = false)).
Proof.
  induction ks as [|k ks IH]; intros w Hknown.
  - exists w. cbn [for_each]. do 5 (split; [done|]). split.
    + exists []. by rewrite app_nil_r.
    + intros k ck Hk. by apply elem_of_nil in Hk.
  - destruct (Hknown k) as [ck Hck]; [apply elem_of_cons; by left|].
    destruct (shutdown_turn_spec env k ck w Hck) as (w1 & Hrun & Hfiles & Hcases).
    assert (Hget1 : forall j, j <> k ->
              Dict.get j (recorders (self w1)) = Dict.get j (recorders (self w))).
    { intros j Hj.
      destruct Hcases as [[_ ->]|(_ & _ & [[_ ->]|[_ ->]])]; try done.
      rewrite get_stopped. by rewrite decide_False. }
    assert (Hsome1 : forall j, is_Some (Dict.get j (recorders (self w))) ->
              is_Some (Dict.get j (recorders (self w1)))).
    { intros j Hj. destruct (decide (j = k)) as [->|Hne]; [|by rewrite Hget1].
      destruct Hcases as [[_ ->]|(_ & _ & [[_ ->]|[_ ->]])]; try done.
      rewrite get_stopped, decide_True; eauto. }
    assert (Hoff1 : forall j, session_active j w = false -> session_active j w1 = false).
    { intros j. unfold session_active.
      destruct (decide (j = k)) as [->|Hne]; [|by rewrite Hget1].
      destruct Hcases as [[_ ->]|(_ & _ & [[_ ->]|[_ ->]])]; try done.
      by rewrite get_stopped, decide_True. }
    assert (Hkeys1 : Dict.keys (recorders (self w1)) = Dict.keys (recorders (self w))).
    { destruct Hcases as [[_ ->]|(_ & _ & [[_ ->]|[_ ->]])]; try done.
      unfold stopped. cbn [recorders]. by eapply keys_set_known. }
    assert (Hcache1 : cache_file (self w1) = cache_file (self w)).
    { by destruct Hcases as [[_ ->]|(_ & _ & [[_ ->]|[_ ->]])]. }
    assert (Hlog1 : exists more, calls w1 = calls w ++ more).
    { destruct Hcases as [[_ ->]|(_ & -> & _)]; [|eauto].
      exists []. by rewrite app_nil_r. }
    destruct (IH w1) as (w' & Hloop & Hfiles' & Hcache' & Hkeys' & Hoff' & Hlog' & Hstopped').
    { intros j Hj. apply Hsome1, Hknown, elem_of_cons. by right. }
    exists w'. split.
    { cbn [for_each]. cbv [mbind M_bind bind]. by rewrite Hrun. }
    split; [congruence|]. split; [congruence|]. split; [congruence|].
    split; [auto|]. split.
    { destruct Hlog1 as [l1 Hl1], Hlog' as [l' Hl'].
      exists (l1 ++ l'). by rewrite Hl', Hl1, app_assoc. }
    intros j cj Hj Hcj Hon.
    destruct (decide (j = k)) as [->|Hne].
    + assert (cj = ck) as -> by congruence.
      destruct Hcases as [[Hoff _]|(_ & Hcalls & Hsub)]; [congruence|].
      split.
      * destruct Hlog' as [l' ->]. rewrite Hcalls.
        apply elem_of_app. left. apply elem_of_app. right.
        apply stop_attempt_logged.
      * intros Hok. apply Hoff'.
        destruct Hsub as [[Hfail _]|[_ Hself]]; [congruence|].
        unfold session_active. by rewrite Hself, get_stopped, decide_True.
    + apply elem_of_cons in Hj as [?|Hj]; [done|].
      apply Hstopped'; [done| by rewrite Hget1 | done].
Qed.


(** ** The context cache sink *)

(** A context update whose three steps go through overwrites the cache
    file with the text of the snapshot. *)
Lemma context_update_writes env context_update w snapshot text :
  on_get_current_context env = Return snapshot ->
  snapshot_text env snapshot = Return text ->
  on_write_text env (cache_file (self w)) text = Return tt ->
  exists made,
    Recorder._on_context_update env context_update w =
    (Return tt, mkWorld (self w) (<[cache_file (self w) := Text text]> (files w))
                  (calls w ++ made)).
Proof.
  intros Hctx Htext Hwrite. unfold Recorder._on_context_update. run_py.
  rewrite Hctx. step_py.
  destruct snapshot; cbn [snapshot_text] in Htext; step_py;
    first [injection Htext as -> | rewrite Htext];
    step_py; rewrite Hwrite; step_py; rewrite <- ?app_assoc; eauto.
Qed.

(** What universal newlines leave of a text: no carriage return; and the
    text itself exactly when it had none. *)
Lemma universal_newlines_no_carriage_return s :
  has_carriage_return (universal_newlines s) = false.
Proof.
  assert (has_carriage_return (universal_newlines s) = false /\
          forall c, has_carriage_return (universal_newlines (String c s)) = false)
    as [H _]; [|exact H].
  induction s as [|a s [IH1 IH2]].
  - split; [done|]. intros c. cbn.
    destruct (decide (c = carriage_return)) as [->|Hc]; cbn; [done|].
    by rewrite bool_decide_eq_false_2.
  - split; [apply IH2|]. intros c.
    cbn [universal_newlines].
    destruct (decide (c = carriage_return)) as [->|Hc].
    + cbn [has_carriage_return].
      rewrite bool_decide_eq_false_2 by done. cbn [orb].
      destruct (decide (a = newline)); [exact IH1|apply IH2].
    + cbn [has_carriage_return]. rewrite bool_decide_eq_false_2 by done.
      cbn [orb]. apply IH2.
Qed.

Lemma universal_newlines_without_carriage_return s :
  has_carriage_return s = false -> universal_newlines s = s.
Proof.
  induction s as [|c s IH]; [done|].
  cbn [has_carriage_return]. intros [Hc Hs]%orb_false_elim.
  apply bool_decide_eq_false in Hc.
  cbn [universal_newlines]. rewrite decide_False by done.
  by rewrite IH.
Qed.

Lemma universal_newlines_fixes s :
  universal_newlines s = s <-> has_carriage_return s = false.
Proof.
  split.
  - intros H. rewrite <- H. apply universal_newlines_no_carriage_return.
  - apply universal_newlines_without_carriage_return.
Qed.

(** Whatever the collaborators answer, a context update returns normally,
    leaves the recorder object alone and only ever appends to the call
    log. *)
Lemma context_update_self env context_update w :
  exists fs made,
    Recorder._on_context_update env context_update w =
    (Return tt, mkWorld (self w) fs (calls w ++ made)).
Proof.
  unfold Recorder._on_context_update. run_py.
  destruct (on_get_current_context env) as [snapshot|e]; step_py; [|eauto].
  destruct snapshot; step_py;
    repeat match goal with
    | |- context [match ?r with Return _ => _ | Raise _ => _ end] =>
        destruct r as [[]|?] || destruct r as [?|?]; step_py
    end;
    rewrite <- ?app_assoc; eauto.
Qed.

(** C7.  A context update never raises, whichever of its steps fails
    (reading the context, encoding it, writing the file), and the recording
    state is exactly what it was before: every session's active flag, the
    counter and the global flag. *)
Theorem cache_failure_leaves_recording_alone env context_update w :
  let w' := exec (Recorder._on_context_update env context_update) w in
  eval (Recorder._on_context_update env context_update) w = Return tt /\
  (forall recorder_id, session_active recorder_id w' = session_active recorder_id w) /\
  active_recorders (self w') = active_recorders (self w) /\
  is_recording (self w') = is_recording (self w) /\
  self w' = self w.
Proof.
  unfold exec, eval.
  destruct (context_update_self env context_update w) as (fs & made & ->).
  cbn [fst snd self]. repeat split.
Qed.

(** C8, as stated, fails on a text snapshot whose lines end in a carriage
    return and a line feed: the cache file holds the text as it was pushed,
    and the reader gets it back with each such pair turned into one line
    feed. *)
Lemma carriage_return_is_read_as_line_feed :
  ~ reads_back_the_cached_text windows_context PyNone reader_side_world
      "/home/u" july_4th.
Proof.
  intros H.
  specialize (H (PyStr windows_text) windows_text eq_refl eq_refl eq_refl eq_refl).
  vm_compute in H. discriminate H.
Qed.

(** C8, as amended.  After a context update whose steps all go through,
    the cache file holds exactly the text of the snapshot (the snapshot
    itself when it is text, its JSON encoding when it is a dictionary),
    whatever the file held before and with every other file untouched.  The
    reader that opens this file gets that text back with its line endings
    as universal newlines give them (a carriage return, with or without a
    line feed after it, is read as a line feed): what it returns is the text
    cached exactly when that text has no carriage return in it. *)
Theorem cache_round_trip env context_update w snapshot text home now :
  on_get_current_context env = Return snapshot ->
  snapshot_text env snapshot = Return text ->
  on_write_text env (cache_file (self w)) text = Return tt ->
  ContextMcpServer.cache_file home now = cache_file (self w) ->
  let w' := exec (Recorder._on_context_update env context_update) w in
  let read_back := eval (ContextMcpServer.get_latest_screen_context home now) w' in
  eval (Recorder._on_context_update env context_update) w = Return tt /\
  files w' = <[cache_file (self w) := Text text]> (files w) /\
  read_back = Return (universal_newlines text) /\
  (read_back = Return text <-> has_carriage_return text = false) /\
  (forall s, snapshot = PyStr s -> text = s) /\
  (forall d, snapshot = PyDict d -> on_json_dumps env snapshot = Return text).
Proof.
  intros Hctx Htext Hwrite Hpath. unfold exec, eval.
  destruct (context_update_writes env context_update w snapshot text Hctx Htext Hwrite)
    as (made & ->).
  cbn [fst snd files].
  assert (fst (ContextMcpServer.get_latest_screen_context home now
                 (mkWorld (self w) (<[cache_file (self w) := Text text]> (files w))
                    (calls w ++ made)))
          = Return (universal_newlines text)) as Hread.
  { unfold ContextMcpServer.get_latest_screen_context, exists_, read_text.
    run_py. rewrite Hpath, lookup_insert_eq. step_py.
    by rewrite lookup_insert_eq. }
  split; [done|]. split; [done|]. split; [exact Hread|]. split.
  - rewrite Hread. rewrite <- universal_newlines_fixes.
    split; [by intros [= ->]|by intros ->].
  - split.
    + intros s ->. cbn in Htext. congruence.
    + intros d ->. exact Htext.
Qed.

Lemma cache_round_trip_witness :
  on_get_current_context structured_context = Return window_snapshot /\
  ContextMcpServer.cache_file "/home/u" (mkDate 2025 7 4)
    = cache_file (self reader_side_world) /\
  files reader_side_world !! "/home/u/.cache/inframe/04072025" = Some (Text "stale") /\
  eval (ContextMcpServer.get_latest_screen_context "/home/u" (mkDate 2025 7 4))
    (exec (Recorder._on_context_update structured_context PyNone) reader_side_world)
    = Return "{ }".
Proof.
  split; [reflexivity|]. split; [reflexivity|]. split; [reflexivity|].
  apply (cache_round_trip structured_context PyNone reader_side_world
           window_snapshot "{ }" "/home/u" (mkDate 2025 7 4));
    reflexivity.
Defined.

(** A context update whose write raises still returns, and leaves the
    files as the failed write left them. *)
Lemma context_update_write_fails env context_update w snapshot text e :
  on_get_current_context env = Return snapshot ->
  snapshot_text env snapshot = Return text ->
  on_write_text env (cache_file (self w)) text = Raise e ->
  eval (Recorder._on_context_update env context_update) w = Return tt /\
  files (exec (Recorder._on_context_update env context_update) w) =
  Recorder.after_failed_write env (cache_file (self w)) text (files w).
Proof.
  intros Hctx Htext Hwrite. unfold exec, eval, Recorder._on_context_update. run_py.
  rewrite Hctx. step_py.
  destruct snapshot; cbn [snapshot_text] in Htext; step_py;
    first [injection Htext as -> | rewrite Htext];
    step_py; rewrite Hwrite; by step_py.
Qed.

(** So a write that fails once the file is open costs the cache its
    text: the reader is handed the empty text. *)
Lemma failed_write_empties_the_cache :
  files (exec (Recorder._on_context_update write_fails PyNone) reader_side_world)
    !! "/home/u/.cache/inframe/04072025" = Some (Text "") /\
  eval (ContextMcpServer.get_latest_screen_context "/home/u" july_4th)
    (exec (Recorder._on_context_update write_fails PyNone) reader_side_world)
    = Return "".
Proof. split; vm_compute; reflexivity. Qed.

(** ** The registry invariant *)

Lemma keys_set_fresh {V} (d : Dict.t V) k v :
  Dict.get k d = None -> Dict.keys (Dict.set k v d) = Dict.keys d ++ [k].
Proof.
  induction d as [|[k' v'] d IH]; cbn; [done|].
  destruct (decide (k = k')) as [->|Hne]; [done|].
  intros H. cbn. f_equal. by apply IH.
Qed.

Lemma fresh_not_key {V} (d : Dict.t V) k :
  Dict.get k d = None -> k ∉ Dict.keys d.
Proof.
  intros Hnone Hin. apply get_known_key in Hin as [v Hv]. congruence.
Qed.

Lemma count_active_all_off (d : Dict.t RecorderConfig.t) :
  NoDup (Dict.keys d) ->
  (forall k c, Dict.get k d = Some c -> RecorderConfig.is_recording c = false) ->
  count_active d = 0.
Proof.
  induction d as [|[k v] d IH]; cbn; [done|].
  intros [Hk Hnd]%NoDup_cons Hoff.
  rewrite (Hoff k v) by by rewrite decide_True.
  rewrite IH; [done|done|].
  intros k' c' Hget. apply (Hoff k' c').
  rewrite decide_False; [done|].
  intros ->. apply Hk. by eapply key_of_get.
Qed.

Lemma count_active_known_on (d : Dict.t RecorderConfig.t) k c :
  Dict.get k d = Some c -> RecorderConfig.is_recording c = true ->
  1 <= count_active d.
Proof.
  induction d as [|[k' v'] d IH]; cbn; [done|].
  destruct (decide (k = k')) as [->|Hne].
  - intros [= ->] ->. pose proof (count_active_nonneg d). lia.
  - intros Hget Hon. specialize (IH Hget Hon).
    destruct (RecorderConfig.is_recording v'); lia.
Qed.

(** The two ways [add_recorder] can end. *)
Lemma add_recorder_cases env recorder_id include_apps mode visual_task w :
  (exists made,
     Recorder.add_recorder env recorder_id include_apps mode visual_task w =
     (Return recorder_id,
      mkWorld (Recorder.with_recorders
                 (Dict.set recorder_id
                    (RecorderConfig.mk include_apps mode visual_task
                       recorder_id recorder_id false)) (self w))
        (files w) (calls w ++ made))) \/
  (exists e made,
     Recorder.add_recorder env recorder_id include_apps mode visual_task w =
     (Raise e, mkWorld (self w) (files w) (calls w ++ made))).
Proof.
  unfold Recorder.add_recorder.
  cbv [mbind M_bind bind ret raise modify_self invoke went_through].
  destruct (on_VideoStream_create env _) as [[]|e1]; step_py; [|eauto].
  destruct (on_create_transcription_pipeline env _) as [[]|e2]; step_py;
    rewrite <- ?app_assoc; eauto.
Qed.

Lemma well_formed_ignores_rest s fs fs' log log' :
  well_formed (mkWorld s fs log) -> well_formed (mkWorld s fs' log').
Proof. done. Qed.

Lemma add_recorder_keeps_invariant env recorder_id include_apps mode visual_task w :
  well_formed w ->
  Dict.get recorder_id (recorders (self w)) = None ->
  well_formed
    (exec (Recorder.add_recorder env recorder_id include_apps mode visual_task) w).
Proof.
  intros [[Hcount Hflag] Hnd] Hfresh. unfold exec.
  destruct (add_recorder_cases env recorder_id include_apps mode visual_task w)
    as [(made & ->)|(e & made & ->)]; cbn [snd]; [|done].
  split; [split|]; cbv [Recorder.with_recorders]; step_py.
  - rewrite (count_active_set_fresh _ _ _ Hfresh). cbn. lia.
  - done.
  - rewrite (keys_set_fresh _ _ _ Hfresh).
    apply NoDup_app. split; [done|]. split.
    + intros k Hk ->%list_elem_of_singleton. by eapply fresh_not_key.
    + apply NoDup_singleton.
Qed.

Lemma start_keeps_invariant env recorder_id w :
  well_formed w ->
  session_active recorder_id w = false ->
  well_formed (exec (Recorder.start env recorder_id) w).
Proof.
  intros [[Hcount Hflag] Hnd] Hoff. unfold exec, session_active in *.
  destruct (Dict.get recorder_id (recorders (self w))) as [config|] eqn:Hget.
  - destruct (start_known env recorder_id config w Hget) as [->|(made & _ & ->)];
      cbn [snd]; [|done].
    split; [split|]; cbv [started]; step_py.
    + rewrite (count_active_set_known _ _ _ _ Hget), Hoff. cbn. lia.
    + pose proof (count_active_nonneg (recorders (self w))).
      split; [lia|done].
    + by rewrite (keys_set_known _ _ _ _ Hget).
  - by rewrite (start_unknown _ _ _ Hget).
Qed.

Lemma stopped_keeps_invariant recorder_id config s :
  registry_consistent s ->
  Dict.get recorder_id (recorders s) = Some config ->
  RecorderConfig.is_recording config = true ->
  registry_consistent (stopped recorder_id config s).
Proof.
  intros [Hcount Hflag] Hget Hon.
  pose proof (count_active_known_on _ _ _ Hget Hon) as Hpos.
  split; cbv [stopped]; step_py.
  - rewrite (count_active_set_known _ _ _ _ Hget), Hon. cbn. lia.
  - destruct (active_recorders s - 1 =? 0) eqn:Hz.
    + apply Z.eqb_eq in Hz. split; [done|lia].
    + apply Z.eqb_neq in Hz. rewrite Hflag. lia.
Qed.

Lemma stop_keeps_invariant env recorder_id w :
  well_formed w -> well_formed (exec (Recorder.stop env recorder_id) w).
Proof.
  intros [Hcons Hnd]. unfold exec.
  destruct (Dict.get recorder_id (recorders (self w))) as [config|] eqn:Hget.
  - destruct (RecorderConfig.is_recording config) eqn:Hon.
    + destruct (stops_go_through env config) eqn:Hok.
      * rewrite (stop_succeeds _ _ _ _ Hget Hon Hok). cbn [snd].
        split; cbn [self].
        -- by apply stopped_keeps_invariant.
        -- unfold stopped. step_py. by rewrite (keys_set_known _ _ _ _ Hget).
      * by rewrite (stop_fails _ _ _ _ Hget Hon Hok).
    + by rewrite (stop_inactive _ _ _ _ Hget Hon).
  - by rewrite (stop_unknown _ _ _ Hget).
Qed.

Lemma shutdown_keeps_invariant env w :
  well_formed w ->
  admissible (Shutdown env) w ->
  well_formed (exec (Recorder.shutdown env) w).
Proof.
  intros [_ Hnd] Hadm. cbn in Hadm. unfold exec.
  destruct (shutdown_loop_spec env (Dict.keys (recorders (self w))) w)
    as (w1 & Hloop & _ & _ & Hkeys & Hoff & _ & Hstopped).
  { intros k. apply get_known_key. }
  rewrite shutdown_unfold. cbv [mbind M_bind bind]. rewrite Hloop.
  cbv [modify_self Recorder.with_is_recording Recorder.with_active_recorders].
  cbn [snd self]. split; [split|]; step_py.
  - symmetry. apply count_active_all_off; [by rewrite Hkeys|].
    intros k c Hget.
    assert (session_active k w1 = false) as Hk.
    { unfold session_active at 1 in Hoff.
      destruct (Dict.get k (recorders (self w))) as [c0|] eqn:Hget0.
      - destruct (RecorderConfig.is_recording c0) eqn:Hon0.
        + apply (Hstopped k c0); eauto using key_of_get.
        + apply Hoff. by rewrite Hget0.
      - apply Hoff. by rewrite Hget0. }
    unfold session_active in Hk. by rewrite Hget in Hk.
  - split; [done|lia].
  - by rewrite Hkeys.
Qed.

Lemma step_keeps_invariant o w :
  well_formed w -> admissible o w -> well_formed (run_op o w).
Proof.
  intros Hwf Hadm. destruct o as [env k a m v|env k|env k|env|env u]; cbn [run_op].
  - by apply add_recorder_keeps_invariant.
  - by apply start_keeps_invariant.
  - by apply stop_keeps_invariant.
  - by apply shutdown_keeps_invariant.
  - unfold exec. destruct (context_update_self env u w) as (fs & made & ->).
    cbn [snd]. by destruct w.
Qed.

Lemma reachable_well_formed w : reachable w -> well_formed w.
Proof.
  induction 1 as [key path fs|w o _ IH Hadm].
  - split; [split|]; cbn; [done|split; [done|lia]|apply NoDup_nil; done].
  - by apply step_keeps_invariant.
Qed.

(** C4, as stated, fails: starting a session that is already active
    counts it a second time. *)
Lemma double_start_breaks_count : ~ registry_consistent (self started_twice).
Proof. intros [Hcount _]. vm_compute in Hcount. discriminate Hcount. Qed.

(** So does a [shutdown] during which a stop call raises: the counter is
    reset while the sessions keep their active flag. *)
Lemma shutdown_after_failed_stop_breaks_count :
  ~ registry_consistent (self (run [Shutdown stop_stream_fails] two_recording)).
Proof. intros [Hcount _]. vm_compute in Hcount. discriminate Hcount. Qed.

(** C4, as amended.  In every state reached from a fresh recorder by
    creating sessions (under unused identifiers), starting sessions that
    are not already active, stopping sessions, context updates, and
    shutdowns during which the stop calls of the active sessions go
    through -- start and stop calls may fail otherwise -- the counter
    equals the number of records flagged active, and the global flag is on
    exactly when the counter is positive. *)
Theorem reachable_registry_consistent w :
  reachable w -> registry_consistent (self w).
Proof. intros Hreach. by apply reachable_well_formed. Qed.

Lemma reachable_registry_consistent_witness :
  reachable two_recording /\ registry_consistent (self two_recording).
Proof.
  assert (reachable two_recording) as Hreach.
  { unfold two_recording, run, empty_world. cbn [fold_left].
    repeat (apply reachable_step; [|vm_compute; done]).
    apply reachable_fresh. }
  split; [exact Hreach|].
  exact (reachable_registry_consistent two_recording Hreach).
Defined.

(** ** The cache readers *)

Lemma reader_on_missing home now w :
  files w !! ContextMcpServer.cache_file home now = None ->
  ContextMcpServer.get_latest_screen_context home now w
    = (Return ContextMcpServer.no_context, w) /\
  ContextMcpServer.check_screen_context_status home now w
    = (Return ContextMcpServer.no_context, w).
Proof.
  intros Hnone.
  unfold ContextMcpServer.get_latest_screen_context,
    ContextMcpServer.check_screen_context_status, exists_, read_text.
  run_py. by rewrite Hnone.
Qed.

Lemma reader_on_content home now w stored :
  files w !! ContextMcpServer.cache_file home now = Some (Text stored) ->
  ContextMcpServer.get_latest_screen_context home now w
    = (Return (universal_newlines stored), w) /\
  ContextMcpServer.check_screen_context_status home now w
    = (Return (status_of (universal_newlines stored)), w).
Proof.
  intros Hsome.
  unfold ContextMcpServer.get_latest_screen_context,
    ContextMcpServer.check_screen_context_status, exists_, read_text.
  run_py. rewrite Hsome. step_py. by rewrite Hsome.
Qed.

Lemma reader_on_unreadable home now w e :
  files w !! ContextMcpServer.cache_file home now = Some (Unreadable e) ->
  ContextMcpServer.get_latest_screen_context home now w = (Raise e, w) /\
  ContextMcpServer.check_screen_context_status home now w = (Raise e, w).
Proof.
  intros Hsome.
  unfold ContextMcpServer.get_latest_screen_context,
    ContextMcpServer.check_screen_context_status, exists_, read_text.
  run_py. rewrite Hsome. step_py. by rewrite Hsome.
Qed.

(** C6, as stated, fails on a cache file that is there and empty:
    [get_latest_screen_context] hands back the empty text. *)
Lemma empty_cache_is_returned_as_context :
  ~ no_context_on_missing_or_empty "/home/u" july_4th empty_cache_world.
Proof.
  intros H. destruct H as [H _]; [by right|].
  vm_compute in H. discriminate H.
Qed.

(** C6, as amended.  Neither tool raises on a missing or an empty cache
    file.  On a missing file both return the "no screen context available"
    text.  On an empty file [get_latest_screen_context] returns the empty
    text and [check_screen_context_status] reports a file with no sessions
    and a content length of 0. *)
Theorem readers_on_missing_or_empty home now w :
  files w !! ContextMcpServer.cache_file home now = None \/
  files w !! ContextMcpServer.cache_file home now = Some (Text "") ->
  match files w !! ContextMcpServer.cache_file home now with
  | None =>
      eval (ContextMcpServer.get_latest_screen_context home now) w
        = Return ContextMcpServer.no_context /\
      eval (ContextMcpServer.check_screen_context_status home now) w
        = Return ContextMcpServer.no_context
  | Some _ =>
      eval (ContextMcpServer.get_latest_screen_context home now) w = Return "" /\
      eval (ContextMcpServer.check_screen_context_status home now) w
        = Return "Screen context file exists but no sessions found. Content length: 0 characters"
  end.
Proof.
  unfold eval. intros [Hnone|Hempty].
  - rewrite Hnone. destruct (reader_on_missing home now w Hnone) as [-> ->]. done.
  - rewrite Hempty. destruct (reader_on_content home now w "" Hempty) as [-> ->]. done.
Qed.

Lemma readers_on_missing_or_empty_witness :
  files empty_cache_world !! ContextMcpServer.cache_file "/home/u" july_4th
    = Some (Text "") /\
  eval (ContextMcpServer.get_latest_screen_context "/home/u" july_4th) empty_cache_world
    = Return "".
Proof.
  split; [reflexivity|].
  apply (readers_on_missing_or_empty "/home/u" july_4th empty_cache_world).
  right. reflexivity.
Defined.

(** The network server reads the same way. *)
Lemma network_reader_on_empty home now w :
  files w !! ContextMcpServerNetwork.cache_file home now = Some (Text "") ->
  eval (ContextMcpServerNetwork.get_latest_screen_context home now) w = Return "" /\
  eval (ContextMcpServerNetwork.get_screen_context home now) w = Return "".
Proof.
  intros Hempty.
  unfold ContextMcpServerNetwork.get_latest_screen_context,
    ContextMcpServerNetwork.get_screen_context, exists_, read_text.
  run_py. rewrite Hempty. step_py. by rewrite Hempty.
Qed.

(** ** Where the cache file is *)

Lemma append_cancel_l (s a b : string) : s +:+ a = s +:+ b -> a = b.
Proof. induction s as [|c s IH]; cbn; [done|]. intros [= H]. by apply IH. Qed.

Lemma digit_inj (a b : Z) : digit a = digit b -> a mod 10 = b mod 10.
Proof.
  unfold digit. intros H. apply (f_equal nat_of_ascii) in H.
  pose proof (Z.mod_pos_bound a 10). pose proof (Z.mod_pos_bound b 10).
  rewrite !nat_ascii_embedding in H by lia. lia.
Qed.

Lemma strftime_Ymd now :
  strftime "%Y%m%d" now =
  four_digits (year now) +:+ two_digits (month now) +:+ two_digits (day now).
Proof. reflexivity. Qed.

Lemma strftime_dmY now :
  strftime "%d%m%Y" now =
  two_digits (day now) +:+ two_digits (month now) +:+ four_digits (year now).
Proof. reflexivity. Qed.

(** The two date formats give the same text only when day, month and both
    halves of the year are one and the same two digits, which no date after
    12 December 1212 is. *)
Lemma formats_differ now :
  1 <= month now <= 12 -> 1213 <= year now <= 9999 ->
  strftime "%Y%m%d" now <> strftime "%d%m%Y" now.
Proof.
  intros Hm Hy. rewrite strftime_Ymd, strftime_dmY.
  unfold four_digits, two_digits. cbn [String.append].
  intros H. injection H as H1 H2 H3 H4 H5 H6 H7 H8.
  apply digit_inj in H1, H2, H3, H4, H5, H6, H7, H8.
  Z.to_euclidean_division_equations. lia.
Qed.

(** On every such day the file the tool writes by default is not the
    file either server reads. *)
Lemma cache_paths_differ home now :
  1 <= month now <= 12 -> 1213 <= year now <= 9999 ->
  Args.cache_file (LocalContextRecorder.default_args home now)
    <> ContextMcpServer.cache_file home now /\
  Args.cache_file (LocalContextRecorder.default_args home now)
    <> ContextMcpServerNetwork.cache_file home now.
Proof.
  intros Hm Hy.
  assert (Args.cache_file (LocalContextRecorder.default_args home now)
          <> ContextMcpServer.cache_file home now) as Hne.
  { unfold LocalContextRecorder.default_args, ContextMcpServer.cache_file,
      ContextMcpServer.ddmmyyyy, path_join. cbn [Args.cache_file].
    intros H. do 3 apply append_cancel_l in H.
    by apply (formats_differ now). }
  split; [exact Hne|exact Hne].
Qed.

(** C5, on 4 July 2025: the command line tool writes
    [.cache/inframe/20250704] and both servers read
    [.cache/inframe/04072025]; after a run of the tool during which a
    context update was cached, the reader still reports that no context is
    available. *)
Theorem reader_does_not_open_writers_file :
  Args.cache_file todays_args = "/home/u/.cache/inframe/20250704" /\
  ContextMcpServer.cache_file "/home/u" july_4th = "/home/u/.cache/inframe/04072025" /\
  ContextMcpServerNetwork.cache_file "/home/u" july_4th
    = "/home/u/.cache/inframe/04072025" /\
  let after_run :=
    exec (LocalContextRecorder.main_async all_fine "rec-1" [PyNone] todays_args)
      (launch todays_args ∅) in
  files after_run !! Args.cache_file todays_args = Some (Text "editing recorder.py") /\
  eval (ContextMcpServer.get_latest_screen_context "/home/u" july_4th) after_run
    = Return ContextMcpServer.no_context.
Proof. repeat split; vm_compute; reflexivity. Qed.

(** ** The command line tool *)

(** The constructor: when its four calls answer, the world holds the new
    recorder and nothing else has changed; when one of them raises, the
    constructor raises and nothing has changed. *)
Lemma new_answers env openai_api_key cache_file w :
  constructor_answers env openai_api_key cache_file = true ->
  Recorder.new env openai_api_key cache_file w =
  (Return tt,
   mkWorld (Recorder.__init__ openai_api_key cache_file) (files w) (calls w)).
Proof.
  unfold constructor_answers, Recorder.new.
  cbv [mbind M_bind bind answered modify_self].
  destruct (on_mkdir_cache_dir env _) as [[]|]; [|done].
  destruct (on_mkdir_recordings_dir env) as [[]|]; [|done].
  destruct (on_create_context_integrator env _) as [[]|]; [|done].
  by destruct (on_set_callback env) as [[]|].
Qed.


Lemma new_at_launch env args fs :
  constructor_answers env None (Args.cache_file args) = true ->
  Recorder.new env None (Args.cache_file args) (launch args fs)
    = (Return tt, launch args fs).
Proof. intros Hbuilt. by rewrite (new_answers _ _ _ _ Hbuilt). Qed.



Lemma add_recorder_succeeds env recorder_id include_apps mode visual_task w :
  on_VideoStream_create env recorder_id = Return tt ->
  on_create_transcription_pipeline env recorder_id = Return tt ->
  Recorder.add_recorder env recorder_id include_apps mode visual_task w =
  (Return recorder_id,
   mkWorld (Recorder.with_recorders
              (Dict.set recorder_id
                 (RecorderConfig.mk include_apps mode visual_task
                    recorder_id recorder_id false)) (self w))
     (files w)
     (calls w ++ [Ev (VideoStream_create recorder_id) true;
                  Ev (create_transcription_pipeline recorder_id) true])).
Proof.
  intros Hvideo Hpipeline. unfold Recorder.add_recorder.
  cbv [mbind M_bind bind ret raise modify_self invoke went_through].
  rewrite Hvideo. step_py. rewrite Hpipeline. step_py.
  by rewrite <- app_assoc.
Qed.


Lemma factories_answer_both env recorder_id :
  factories_answer env recorder_id = true ->
  on_VideoStream_create env recorder_id = Return tt /\
  on_create_transcription_pipeline env recorder_id = Return tt.
Proof.
  unfold factories_answer.
  destruct (on_VideoStream_create env _) as [[]|]; [|done].
  by destruct (on_create_transcription_pipeline env _) as [[]|].
Qed.

(** Context updates in a row return and leave the recorder alone. *)
Lemma updates_keep_self env pushed : forall w,
  exists fs made,
    for_each pushed (Recorder._on_context_update env) w =
    (Return tt, mkWorld (self w) fs (calls w ++ made)).
Proof.
  induction pushed as [|u pushed IH]; intros w.
  - exists (files w), []. rewrite app_nil_r. by destruct w.
  - cbn [for_each]. cbv [mbind M_bind bind].
    destruct (context_update_self env u w) as (fs1 & made1 & ->).
    destruct (IH (mkWorld (self w) fs1 (calls w ++ made1))) as (fs & made & ->).
    cbn [self calls]. exists fs, (made1 ++ made). by rewrite app_assoc.
Qed.

(** [stop] on a known session returns, whatever the stop calls answer. *)
Lemma stop_known_returns env recorder_id config w :
  Dict.get recorder_id (recorders (self w)) = Some config ->
  RecorderConfig.is_recording config = true ->
  exists made,
    Recorder.stop env recorder_id w =
    (Return tt,
     mkWorld (if stops_go_through env config
              then stopped recorder_id config (self w) else self w)
       (files w) (calls w ++ made)).
Proof.
  intros Hget Hon. destruct (stops_go_through env config) eqn:Hok.
  - rewrite (stop_succeeds _ _ _ _ Hget Hon Hok). eauto.
  - rewrite (stop_fails _ _ _ _ Hget Hon Hok). eauto.
Qed.

(** Printing the cached context never fails, readable or not. *)
Lemma print_context_returns path w :
  try_except
    (there ← exists_ path;
     if (there : bool) then read_text path;; ret tt else ret tt)
    (fun _ => ret tt) w = (Return tt, w).
Proof.
  unfold exists_, read_text. run_py.
  destruct (files w !! path) as [[stored|e]|] eqn:Hfile; step_py;
    rewrite ?Hfile; by step_py.
Qed.




(** * Further properties *)

(** ** Creating a session *)

(** X1.  When both factories answer, [add_recorder] returns the
    identifier it was given and files under it a record with the requested
    parameters and the active flag off.  It starts nothing: the two factory
    calls are the only calls it makes, so no capture stream and no analysis
    pipeline is started or stopped by it; and the records of the other
    sessions, the counter, the global flag and the files are what they
    were. *)
Theorem add_recorder_registers_inactive
  env recorder_id include_apps mode visual_task w :
  on_VideoStream_create env recorder_id = Return tt ->
  on_create_transcription_pipeline env recorder_id = Return tt ->
  let w' :=
    exec (Recorder.add_recorder env recorder_id include_apps mode visual_task) w in
  eval (Recorder.add_recorder env recorder_id include_apps mode visual_task) w
    = Return recorder_id /\
  Dict.get recorder_id (recorders (self w'))
    = Some (RecorderConfig.mk include_apps mode visual_task
              recorder_id recorder_id false) /\
  session_active recorder_id w' = false /\
  calls w' = calls w ++ [Ev (VideoStream_create recorder_id) true;
                         Ev (create_transcription_pipeline recorder_id) true] /\
  (forall handle,
     capture_started handle (calls w') = capture_started handle (calls w) /\
     analysis_started handle (calls w') = analysis_started handle (calls w)) /\
  (forall other, other <> recorder_id ->
     Dict.get other (recorders (self w')) = Dict.get other (recorders (self w))) /\
  active_recorders (self w') = active_recorders (self w) /\
  is_recording (self w') = is_recording (self w) /\
  files w' = files w.
Proof.
  intros Hvideo Hpipeline. unfold exec, eval, session_active.
  rewrite (add_recorder_succeeds _ _ _ _ _ _ Hvideo Hpipeline).
  cbv [Recorder.with_recorders]. step_py.
  rewrite get_set_eq. split; [done|]. split; [done|]. split; [done|].
  split; [done|]. split.
  { intros handle. by rewrite capture_started_app, analysis_started_app. }
  split; [|done]. intros other Hother. by apply get_set_ne.
Qed.

Lemma add_recorder_registers_inactive_witness :
  on_VideoStream_create all_fine "rec-2" = Return tt /\
  session_active "rec-1"
    (exec (Recorder.add_recorder all_fine "rec-2" None window_only None)
       one_recording) = true /\
  session_active "rec-2"
    (exec (Recorder.add_recorder all_fine "rec-2" None window_only None)
       one_recording) = false /\
  capture_started "rec-2"
    (calls (exec (Recorder.add_recorder all_fine "rec-2" None window_only None)
              one_recording)) = false.
Proof.
  split; [reflexivity|].
  pose proof (add_recorder_registers_inactive all_fine "rec-2" None window_only None
                one_recording eq_refl eq_refl) as (_ & _ & Hnew & _ & Hstarted & _).
  split; [reflexivity|]. split; [exact Hnew|].
  destruct (Hstarted "rec-2") as [-> _]. reflexivity.
Defined.

(** X2.  When a factory raises, [add_recorder] lets the exception through
    and the recorder object is untouched: no record is filed. *)
Theorem add_recorder_files_nothing_on_failure
  env recorder_id include_apps mode visual_task w e :
  on_VideoStream_create env recorder_id = Raise e \/
  (on_VideoStream_create env recorder_id = Return tt /\
   on_create_transcription_pipeline env recorder_id = Raise e) ->
  let w' :=
    exec (Recorder.add_recorder env recorder_id include_apps mode visual_task) w in
  eval (Recorder.add_recorder env recorder_id include_apps mode visual_task) w
    = Raise e /\
  self w' = self w /\
  files w' = files w.
Proof.
  unfold exec, eval, Recorder.add_recorder.
  cbv [mbind M_bind bind ret raise modify_self invoke went_through].
  intros [Hvideo|[Hvideo Hpipeline]]; rewrite Hvideo; step_py; [done|].
  rewrite Hpipeline. by step_py.
Qed.

Lemma add_recorder_files_nothing_on_failure_witness :
  on_VideoStream_create factory_fails "rec-2" = Raise (CollaboratorError "no display") /\
  self (exec (Recorder.add_recorder factory_fails "rec-2" None window_only None)
          one_recording)
    = self one_recording.
Proof.
  split; [reflexivity|].
  eapply add_recorder_files_nothing_on_failure. left. reflexivity.
Defined.

(** ** Stopping, and starting again *)

(** X3.  A [stop] of an active session whose stop calls go through asks
    the analysis pipeline to stop and then the capture stream, in this
    order; it clears the flag of that session and of no other, takes one
    off the counter, and turns the global flag off exactly when the counter
    reaches 0. *)
Theorem stop_stops_analysis_then_capture env recorder_id config w :
  Dict.get recorder_id (recorders (self w)) = Some config ->
  RecorderConfig.is_recording config = true ->
  stops_go_through env config = true ->
  let w' := exec (Recorder.stop env recorder_id) w in
  eval (Recorder.stop env recorder_id) w = Return tt /\
  calls w' =
    calls w ++ [Ev (stop_pipeline (RecorderConfig.transcription_pipeline config)) true;
                Ev (stop_stream (RecorderConfig.video_stream config)) true] /\
  Dict.get recorder_id (recorders (self w'))
    = Some (RecorderConfig.set_is_recording false config) /\
  (forall other, other <> recorder_id ->
     Dict.get other (recorders (self w')) = Dict.get other (recorders (self w))) /\
  active_recorders (self w') = active_recorders (self w) - 1 /\
  is_recording (self w') =
    (if active_recorders (self w) =? 1 then false else is_recording (self w)) /\
  files w' = files w.
Proof.
  intros Hget Hon Hok. unfold exec, eval.
  rewrite (stop_succeeds _ _ _ _ Hget Hon Hok). cbn [fst snd self calls files].
  split; [done|]. split.
  { unfold stops_go_through, stop_calls in *.
    destruct (on_stop_pipeline env _) as [[]|]; [|done].
    destruct (on_stop_stream env _) as [[]|]; done. }
  split; [by rewrite get_stopped, decide_True|].
  split. { intros other Hother. by rewrite get_stopped, decide_False. }
  unfold stopped. step_py. split; [done|]. split; [|done].
  destruct (active_recorders (self w) - 1 =? 0) eqn:H0;
    destruct (active_recorders (self w) =? 1) eqn:H1; try done; lia.
Qed.

Lemma stop_stops_analysis_then_capture_witness :
  Dict.get "rec-1" (recorders (self two_recording))
    = Some (RecorderConfig.set_is_recording true rec1_config) /\
  active_recorders (self (exec (Recorder.stop all_fine "rec-1") two_recording)) = 1 /\
  is_recording (self (exec (Recorder.stop all_fine "rec-1") two_recording)) = true.
Proof.
  split; [reflexivity|].
  pose proof (stop_stops_analysis_then_capture all_fine "rec-1"
                (RecorderConfig.set_is_recording true rec1_config) two_recording
                eq_refl eq_refl eq_refl) as (_ & _ & _ & _ & Hcount & Hflag & _).
  split; [exact Hcount|exact Hflag].
Defined.

(** X4.  When stopping the analysis pipeline raises, [stop] gives up
    there: the capture stream is never asked to stop and stays in the state
    it was in. *)
Theorem stop_gives_up_after_analysis_failure env recorder_id config w e :
  Dict.get recorder_id (recorders (self w)) = Some config ->
  RecorderConfig.is_recording config = true ->
  on_stop_pipeline env (RecorderConfig.transcription_pipeline config) = Raise e ->
  let w' := exec (Recorder.stop env recorder_id) w in
  calls w' =
    calls w ++ [Ev (stop_pipeline (RecorderConfig.transcription_pipeline config)) false] /\
  capture_started (RecorderConfig.video_stream config) (calls w') =
  capture_started (RecorderConfig.video_stream config) (calls w).
Proof.
  intros Hget Hon Hraise. unfold exec.
  assert (stops_go_through env config = false) as Hfail.
  { unfold stops_go_through. by rewrite Hraise. }
  rewrite (stop_fails _ _ _ _ Hget Hon Hfail). cbn [snd calls].
  unfold stop_calls. rewrite Hraise. split; [done|].
  by rewrite capture_started_app.
Qed.

Lemma stop_gives_up_after_analysis_failure_witness :
  Dict.get "rec-1" (recorders (self one_recording))
    = Some (RecorderConfig.set_is_recording true rec1_config) /\
  capture_started "rec-1"
    (calls (exec (Recorder.stop stop_pipeline_fails "rec-1") one_recording)) = true.
Proof.
  split; [reflexivity|].
  etransitivity.
  - eapply (stop_gives_up_after_analysis_failure stop_pipeline_fails "rec-1"
              (RecorderConfig.set_is_recording true rec1_config) one_recording);
      reflexivity.
  - reflexivity.
Defined.

Lemma start_succeeds env recorder_id config w :
  Dict.get recorder_id (recorders (self w)) = Some config ->
  on_start_stream env (RecorderConfig.video_stream config)
    (RecorderConfig.recording_mode config) = Return true ->
  on_start_pipeline env (RecorderConfig.transcription_pipeline config)
    (RecorderConfig.video_stream config) (RecorderConfig.visual_task config)
    = Return tt ->
  on_start_integrator env (RecorderConfig.transcription_pipeline config) = Return tt ->
  Recorder.start env recorder_id w =
  (Return true, mkWorld (started recorder_id config (self w)) (files w)
                  (calls w ++ started_calls config)).
Proof.
  intros Hget Hcapture Hanalysis Hintegrator. unfold Recorder.start. run_py.
  rewrite (contains_known _ _ _ Hget). step_py. rewrite Hget. step_py.
  rewrite Hcapture. step_py. rewrite Hanalysis. step_py.
  rewrite Hintegrator. step_py. rewrite Hget.
  unfold started, started_calls. by rewrite <- !app_assoc.
Qed.

Lemma set_set {V} (d : Dict.t V) k v v' :
  Dict.set k v (Dict.set k v' d) = Dict.set k v d.
Proof.
  induction d as [|[k0 v0] d IH]; cbn.
  - by rewrite decide_True.
  - destruct (decide (k = k0)) as [->|Hne]; cbn.
    + by rewrite decide_True.
    + rewrite decide_False by done. by rewrite IH.
Qed.

Lemma set_same {V} (d : Dict.t V) k v :
  Dict.get k d = Some v -> Dict.set k v d = d.
Proof.
  induction d as [|[k0 v0] d IH]; cbn; [done|].
  destruct (decide (k = k0)) as [->|Hne].
  - by intros [= ->].
  - intros Hget. by rewrite IH.
Qed.

(** X5.  Starting an inactive session and stopping it again brings the
    recorder object back to exactly what it was -- every record, the
    counter and the global flag -- provided the counter was not negative
    and the global flag agreed with it to begin with, and all five
    collaborator calls go through. *)
Theorem start_then_stop_restores env env' recorder_id config w :
  Dict.get recorder_id (recorders (self w)) = Some config ->
  RecorderConfig.is_recording config = false ->
  0 <= active_recorders (self w) ->
  (is_recording (self w) = true <-> 0 < active_recorders (self w)) ->
  on_start_stream env (RecorderConfig.video_stream config)
    (RecorderConfig.recording_mode config) = Return true ->
  on_start_pipeline env (RecorderConfig.transcription_pipeline config)
    (RecorderConfig.video_stream config) (RecorderConfig.visual_task config)
    = Return tt ->
  on_start_integrator env (RecorderConfig.transcription_pipeline config) = Return tt ->
  stops_go_through env' config = true ->
  eval (Recorder.start env recorder_id) w = Return true /\
  eval (Recorder.stop env' recorder_id) (exec (Recorder.start env recorder_id) w)
    = Return tt /\
  self (exec (Recorder.stop env' recorder_id) (exec (Recorder.start env recorder_id) w))
    = self w.
Proof.
  intros Hget Hoff Hnonneg Hflag Hcapture Hanalysis Hintegrator Hstops.
  unfold exec, eval.
  rewrite (start_succeeds _ _ _ _ Hget Hcapture Hanalysis Hintegrator).
  cbn [fst snd]. split; [done|].
  erewrite stop_succeeds; cycle 1.
  - cbn [self]. unfold started. cbn [recorders]. apply get_set_eq.
  - done.
  - exact Hstops.
  - cbn [fst snd self]. split; [done|].
    unfold stopped, started. step_py. rewrite set_set.
    assert (RecorderConfig.set_is_recording false
              (RecorderConfig.set_is_recording true config) = config) as ->.
    { destruct config. cbn in Hoff. by subst. }
    rewrite (set_same _ _ _ Hget).
    replace (active_recorders (self w) + 1 - 1) with (active_recorders (self w)) by lia.
    destruct (self w) as [key flag path d n]. cbn in *. f_equal.
    destruct (n =? 0) eqn:Hn.
    + apply Z.eqb_eq in Hn. destruct flag; [|done].
      assert (0 < n) by by apply Hflag. lia.
    + apply Z.eqb_neq in Hn. symmetry. apply Hflag. lia.
Qed.

Lemma start_then_stop_restores_witness :
  Dict.get "rec-1" (recorders (self one_session)) = Some rec1_config /\
  self (exec (Recorder.stop all_fine "rec-1")
          (exec (Recorder.start all_fine "rec-1") one_session))
    = self one_session.
Proof.
  split; [reflexivity|].
  assert (0 <= active_recorders (self one_session)) as Hcount
    by (vm_compute; discriminate).
  assert (is_recording (self one_session) = true
          <-> 0 < active_recorders (self one_session)) as Hflag.
  { split; intros H; vm_compute in H; discriminate H. }
  apply (start_then_stop_restores all_fine all_fine "rec-1" rec1_config one_session
           eq_refl eq_refl Hcount Hflag eq_refl eq_refl eq_refl eq_refl).
Defined.

(** ** What no operation does *)

Lemma stop_keeps_keys_and_path env recorder_id w :
  Dict.keys (recorders (self (exec (Recorder.stop env recorder_id) w)))
    = Dict.keys (recorders (self w)) /\
  cache_file (self (exec (Recorder.stop env recorder_id) w)) = cache_file (self w).
Proof.
  unfold exec.
  destruct (Dict.get recorder_id (recorders (self w))) as [config|] eqn:Hget.
  - destruct (RecorderConfig.is_recording config) eqn:Hon.
    + destruct (stops_go_through env config) eqn:Hok.
      * rewrite (stop_succeeds _ _ _ _ Hget Hon Hok). unfold stopped. step_py.
        by rewrite (keys_set_known _ _ _ _ Hget).
      * by rewrite (stop_fails _ _ _ _ Hget Hon Hok).
    + by rewrite (stop_inactive _ _ _ _ Hget Hon).
  - by rewrite (stop_unknown _ _ _ Hget).
Qed.

Lemma start_keeps_keys_and_path env recorder_id w :
  Dict.keys (recorders (self (exec (Recorder.start env recorder_id) w)))
    = Dict.keys (recorders (self w)) /\
  cache_file (self (exec (Recorder.start env recorder_id) w)) = cache_file (self w).
Proof.
  unfold exec.
  destruct (Dict.get recorder_id (recorders (self w))) as [config|] eqn:Hget.
  - destruct (start_known env recorder_id config w Hget) as [->|(made & _ & ->)];
      [|done].
    unfold started. step_py. by rewrite (keys_set_known _ _ _ _ Hget).
  - by rewrite (start_unknown _ _ _ Hget).
Qed.

Lemma shutdown_keeps_keys_and_path env w :
  Dict.keys (recorders (self (exec (Recorder.shutdown env) w)))
    = Dict.keys (recorders (self w)) /\
  cache_file (self (exec (Recorder.shutdown env) w)) = cache_file (self w).
Proof.
  unfold exec.
  destruct (shutdown_loop_spec env (Dict.keys (recorders (self w))) w)
    as (w1 & Hloop & _ & Hcache & Hkeys & _).
  { intros k. apply get_known_key. }
  rewrite shutdown_unfold. cbv [mbind M_bind bind]. rewrite Hloop.
  cbv [modify_self Recorder.with_is_recording Recorder.with_active_recorders].
  by step_py.
Qed.

Lemma add_recorder_keeps_path_grows_keys env recorder_id include_apps mode visual_task w :
  (exists added,
     Dict.keys (recorders (self (exec (Recorder.add_recorder env recorder_id
                                         include_apps mode visual_task) w)))
       = Dict.keys (recorders (self w)) ++ added) /\
  cache_file (self (exec (Recorder.add_recorder env recorder_id
                            include_apps mode visual_task) w))
    = cache_file (self w).
Proof.
  unfold exec.
  destruct (add_recorder_cases env recorder_id include_apps mode visual_task w)
    as [(made & ->)|(e & made & ->)]; cbn [snd].
  - cbv [Recorder.with_recorders]. step_py. split; [|done].
    destruct (Dict.get recorder_id (recorders (self w))) as [c|] eqn:Hget.
    + exists []. by rewrite (keys_set_known _ _ _ _ Hget), app_nil_r.
    + exists [recorder_id]. by apply keys_set_fresh.
  - split; [|done]. exists []. by rewrite app_nil_r.
Qed.

Lemma run_op_keeps_path_grows_keys o w :
  (exists added,
     Dict.keys (recorders (self (run_op o w)))
       = Dict.keys (recorders (self w)) ++ added) /\
  cache_file (self (run_op o w)) = cache_file (self w).
Proof.
  destruct o as [env k a m v|env k|env k|env|env u]; cbn [run_op].
  - apply add_recorder_keeps_path_grows_keys.
  - destruct (start_keeps_keys_and_path env k w) as [-> ->].
    split; [|done]. exists []. by rewrite app_nil_r.
  - destruct (stop_keeps_keys_and_path env k w) as [-> ->].
    split; [|done]. exists []. by rewrite app_nil_r.
  - destruct (shutdown_keeps_keys_and_path env w) as [-> ->].
    split; [|done]. exists []. by rewrite app_nil_r.
  - unfold exec. destruct (context_update_self env u w) as (fs & made & ->).
    cbn [snd self]. split; [|done]. exists []. by rewrite app_nil_r.
Qed.

(** X6.  No sequence of operations, whatever the collaborators answer,
    ever removes a session or changes the order of creation: the list of
    identifiers only grows at its end.  A session the registry knows is
    therefore known for good. *)
Theorem sessions_are_never_removed ops w :
  (exists added,
     Dict.keys (recorders (self (run ops w)))
       = Dict.keys (recorders (self w)) ++ added) /\
  (forall recorder_id,
     Dict.contains recorder_id (recorders (self w)) = true ->
     Dict.contains recorder_id (recorders (self (run ops w))) = true).
Proof.
  assert (exists added,
            Dict.keys (recorders (self (run ops w)))
              = Dict.keys (recorders (self w)) ++ added) as Hgrow.
  { revert w. induction ops as [|o ops IH]; intros w; cbn.
    - exists []. by rewrite app_nil_r.
    - destruct (IH (run_op o w)) as [more Hmore].
      destruct (run_op_keeps_path_grows_keys o w) as [[added Hadded] _].
      exists (added ++ more). unfold run in Hmore. by rewrite Hmore, Hadded, app_assoc. }
  split; [exact Hgrow|].
  destruct Hgrow as [added Hadded]. intros k. unfold Dict.contains.
  destruct (Dict.get k (recorders (self w))) as [c|] eqn:Hget; [intros _|done].
  apply key_of_get in Hget.
  assert (k ∈ Dict.keys (recorders (self (run ops w)))) as Hin.
  { rewrite Hadded. apply elem_of_app. by left. }
  by apply get_known_key in Hin as [c' ->].
Qed.

(** X7.  The path of the cache file is fixed when the recorder is built:
    no sequence of operations changes it, and [get_cache_file_path] hands
    it back without touching anything. *)
Theorem cache_path_is_fixed ops api_key path fs :
  let w := run ops (fresh_world api_key path fs) in
  cache_file (self w) = path /\
  Recorder.get_cache_file_path w = (Return path, w).
Proof.
  assert (forall w0, cache_file (self (run ops w0)) = cache_file (self w0)) as Hfixed.
  { induction ops as [|o ops IH]; intros w0; cbn; [done|].
    unfold run in IH. rewrite IH.
    by destruct (run_op_keeps_path_grows_keys o w0) as [_ ->]. }
  cbn zeta. specialize (Hfixed (fresh_world api_key path fs)). cbn in Hfixed.
  split; [exact Hfixed|].
  unfold Recorder.get_cache_file_path. run_py. by rewrite Hfixed.
Qed.

(** ** Shutting down with nothing to stop *)

Lemma idle_loop env ks : forall w,
  (forall k, k ∈ ks -> is_Some (Dict.get k (recorders (self w)))) ->
  (forall k c, Dict.get k (recorders (self w)) = Some c ->
     RecorderConfig.is_recording c = false) ->
  for_each ks (shutdown_turn env) w = (Return tt, w).
Proof.
  induction ks as [|k ks IH]; intros w Hknown Hoff; [done|].
  destruct (Hknown k) as [c Hc]; [apply elem_of_cons; by left|].
  cbn [for_each]. cbv [mbind M_bind bind].
  assert (shutdown_turn env k w = (Return tt, w)) as ->.
  { unfold shutdown_turn.
    cbv [mbind M_bind bind Recorder.getitem_recorders get_self ret].
    rewrite Hc. step_py. by rewrite (Hoff k c Hc). }
  apply IH; [|done]. intros j Hj. apply Hknown, elem_of_cons. by right.
Qed.

(** X8.  When no session is active, [shutdown] calls no collaborator and
    leaves every record as it is; it only puts the counter at 0 and the
    global flag off, whatever they were. *)
Theorem shutdown_with_nothing_active env w :
  (forall recorder_id config,
     Dict.get recorder_id (recorders (self w)) = Some config ->
     RecorderConfig.is_recording config = false) ->
  let w' := exec (Recorder.shutdown env) w in
  eval (Recorder.shutdown env) w = Return tt /\
  calls w' = calls w /\
  recorders (self w') = recorders (self w) /\
  active_recorders (self w') = 0 /\
  is_recording (self w') = false /\
  files w' = files w.
Proof.
  intros Hoff. unfold exec, eval. rewrite shutdown_unfold.
  cbv [mbind M_bind bind].
  rewrite (idle_loop env _ w); [|intros k; apply get_known_key|done].
  cbv [modify_self Recorder.with_is_recording Recorder.with_active_recorders].
  by step_py.
Qed.

Lemma shutdown_with_nothing_active_witness :
  session_active "rec-1" one_session = false /\
  calls (exec (Recorder.shutdown stop_stream_fails) one_session) = calls one_session.
Proof.
  split; [reflexivity|].
  apply (shutdown_with_nothing_active stop_stream_fails one_session).
  intros k c H. change (Dict.get k [("rec-1", rec1_config)] = Some c) in H.
  cbn in H. destruct (decide (k = "rec-1")); [|discriminate H].
  injection H as <-. reflexivity.
Defined.

(** ** Reading the status *)

Lemma get_status_unknown reads recorder_id w :
  Dict.get recorder_id (recorders (self w)) = None ->
  RecorderReads.get_status reads recorder_id w =
  (Return (PyDict [("is_recording", PyBool false);
                   ("message", PyStr ("Recorder " +:+ recorder_id +:+ " not found"))]),
   w).
Proof.
  intros Hget. unfold RecorderReads.get_status, Dict.contains. run_reads.
  by rewrite Hget.
Qed.

Lemma get_status_inactive reads recorder_id config w :
  Dict.get recorder_id (recorders (self w)) = Some config ->
  RecorderConfig.is_recording config = false ->
  RecorderReads.get_status reads recorder_id w =
  (Return (PyDict [("is_recording", PyBool false); ("message", PyStr "Not recording")]),
   w).
Proof.
  intros Hget Hoff. unfold RecorderReads.get_status. run_reads.
  rewrite (contains_known _ _ _ Hget). step_py. rewrite Hget. step_py.
  by rewrite Hoff.
Qed.

(** What [get_status] answers for an active session: the full record
    when every status read goes through, the global flag next to the text of
    the exception otherwise. *)
Lemma get_status_active reads recorder_id config w :
  Dict.get recorder_id (recorders (self w)) = Some config ->
  RecorderConfig.is_recording config = true ->
  (exists rest,
     RecorderReads.get_status reads recorder_id w =
     (Return (PyDict (("is_recording", PyBool true) :: rest)), w) /\
     status_reads_answer reads config = true) \/
  (exists e,
     RecorderReads.get_status reads recorder_id w =
     (Return (PyDict [("is_recording", PyBool (is_recording (self w)));
                      ("error", PyStr (exn_str e))]), w) /\
     status_reads_answer reads config = false).
Proof.
  intros Hget Hon. unfold RecorderReads.get_status, status_reads_answer, has_item.
  run_reads.
  rewrite (contains_known _ _ _ Hget). step_py. rewrite Hget. step_py.
  rewrite Hon. step_py. rewrite Hget. step_py.
  destruct (on_get_buffer_status reads _) as [video|e]; step_py; [|eauto].
  destruct (on_get_pipeline_status reads _) as [pipeline|e]; step_py; [|eauto].
  destruct (on_get_context_status reads) as [integrator|e]; step_py; [|eauto].
  destruct (lookup_item "clip_count" video); step_py; [|eauto].
  destruct (lookup_item "buffer_duration" video); step_py; [|eauto].
  destruct (lookup_item "total_clips_processed" pipeline); step_py; [|eauto].
  destruct (lookup_item "total_clips_processed" integrator); step_py; [|eauto].
  destruct (lookup_item "session_duration_seconds" integrator); step_py; [|eauto].
  destruct (lookup_item "speakers_identified" integrator) as [speakers|];
    step_py; [|eauto].
  destruct speakers; step_py; eauto.
Qed.

(** X9.  [get_status] never raises and never changes anything, whatever
    the identifier and whatever the collaborators answer.  Its answer
    always starts with an ['is_recording'] entry.  That entry is true only
    for a session that is flagged active.  For such a session it is true
    when every status read goes through, and otherwise it repeats the
    global flag: so it is false for an active session only when a status
    read failed while the global flag was off. *)
Theorem get_status_is_a_safe_read reads recorder_id w :
  exists b rest,
    RecorderReads.get_status reads recorder_id w =
    (Return (PyDict (("is_recording", PyBool b) :: rest)), w) /\
    (b = true -> session_active recorder_id w = true) /\
    (forall config,
       Dict.get recorder_id (recorders (self w)) = Some config ->
       RecorderConfig.is_recording config = true ->
       b = status_reads_answer reads config || is_recording (self w)) /\
    (session_active recorder_id w = true -> b = false ->
     is_recording (self w) = false /\
     exists config,
       Dict.get recorder_id (recorders (self w)) = Some config /\
       status_reads_answer reads config = false).
Proof.
  unfold session_active.
  destruct (Dict.get recorder_id (recorders (self w))) as [config|] eqn:Hget.
  - destruct (RecorderConfig.is_recording config) eqn:Hon.
    + destruct (get_status_active reads recorder_id config w Hget Hon)
        as [[rest [Hrun Hreads]]|[e [Hrun Hreads]]]; rewrite Hrun.
      * eexists _, _. split; [done|]. split; [done|]. split; [|discriminate].
        intros ? [= <-] _. by rewrite Hreads.
      * eexists _, _. split; [done|]. split; [done|]. split.
        -- intros ? [= <-] _. by rewrite Hreads.
        -- intros _ Hoff. split; [exact Hoff|eauto].
    + rewrite (get_status_inactive reads _ _ _ Hget Hon).
      eexists _, _. split; [done|]. split; [discriminate|].
      split; [|discriminate]. intros ? [= <-]. congruence.
  - rewrite (get_status_unknown reads _ _ Hget).
    eexists _, _. split; [done|]. split; [discriminate|].
    split; [|discriminate]. discriminate.
Qed.

(** X10.  An identifier the registry does not know is reported, not
    raised: [start] answers [False] and [get_status] answers a record saying
    that the recorder was not found; neither calls a collaborator or changes
    anything. *)
Theorem unknown_identifier_is_reported env reads recorder_id w :
  Dict.get recorder_id (recorders (self w)) = None ->
  Recorder.start env recorder_id w = (Return false, w) /\
  RecorderReads.get_status reads recorder_id w =
  (Return (PyDict [("is_recording", PyBool false);
                   ("message", PyStr ("Recorder " +:+ recorder_id +:+ " not found"))]),
   w).
Proof.
  intros Hget. split.
  - by apply start_unknown.
  - by apply get_status_unknown.
Qed.

Lemma unknown_identifier_is_reported_witness :
  Dict.get "rec-9" (recorders (self one_recording)) = None /\
  eval (RecorderReads.get_status reads_fine "rec-9") one_recording =
  Return (PyDict [("is_recording", PyBool false);
                  ("message", PyStr "Recorder rec-9 not found")]).
Proof.
  split; [reflexivity|].
  unfold eval.
  by destruct (unknown_identifier_is_reported all_fine reads_fine "rec-9"
                 one_recording eq_refl) as [_ ->].
Defined.

(** X11.  For an active session whose three status reads answer with the
    entries the recorder looks up, [get_status] reports ['is_recording']
    true, the five values found under those entries, and the number of
    speakers identified. *)
Theorem get_status_merges_the_three_reads
  reads recorder_id config w video pipeline integrator
  clips buffer processed context_clips session speakers :
  Dict.get recorder_id (recorders (self w)) = Some config ->
  RecorderConfig.is_recording config = true ->
  on_get_buffer_status reads (RecorderConfig.video_stream config) = Return video ->
  on_get_pipeline_status reads (RecorderConfig.transcription_pipeline config)
    = Return pipeline ->
  on_get_context_status reads = Return integrator ->
  lookup_item "clip_count" video = Some clips ->
  lookup_item "buffer_duration" video = Some buffer ->
  lookup_item "total_clips_processed" pipeline = Some processed ->
  lookup_item "total_clips_processed" integrator = Some context_clips ->
  lookup_item "session_duration_seconds" integrator = Some session ->
  lookup_item "speakers_identified" integrator = Some (PyList speakers) ->
  RecorderReads.get_status reads recorder_id w =
  (Return (PyDict [("is_recording", PyBool true);
                   ("video_clips", clips);
                   ("buffer_duration", buffer);
                   ("processed_clips", processed);
                   ("context_clips", context_clips);
                   ("session_duration", session);
                   ("speakers_identified", PyInt (Z.of_nat (length speakers)))]),
   w).
Proof.
  intros Hget Hon Hvideo Hpipeline Hintegrator H1 H2 H3 H4 H5 H6.
  unfold RecorderReads.get_status. run_reads.
  rewrite (contains_known _ _ _ Hget). step_py. rewrite Hget. step_py.
  rewrite Hon. step_py. rewrite Hget. step_py.
  rewrite Hvideo. step_py. rewrite Hpipeline. step_py. rewrite Hintegrator. step_py.
  rewrite H1. step_py. rewrite H2. step_py. rewrite H3. step_py.
  rewrite H4. step_py. rewrite H5. step_py. by rewrite H6.
Qed.

Lemma get_status_merges_the_three_reads_witness :
  Dict.get "rec-1" (recorders (self one_recording))
    = Some (RecorderConfig.set_is_recording true rec1_config) /\
  eval (RecorderReads.get_status reads_fine "rec-1") one_recording =
  Return (PyDict [("is_recording", PyBool true);
                  ("video_clips", PyInt 4);
                  ("buffer_duration", PyInt 30);
                  ("processed_clips", PyInt 3);
                  ("context_clips", PyInt 3);
                  ("session_duration", PyInt 20);
                  ("speakers_identified", PyInt 2)]).
Proof.
  split; [reflexivity|].
  unfold eval.
  by rewrite (get_status_merges_the_three_reads reads_fine "rec-1"
                (RecorderConfig.set_is_recording true rec1_config) one_recording
                _ _ _ _ _ _ _ _ [PyStr "A"; PyStr "B"]
                eq_refl eq_refl eq_refl eq_refl eq_refl
                eq_refl eq_refl eq_refl eq_refl eq_refl eq_refl).
Defined.

(** X12.  When one of the three status reads raises for an active
    session, [get_status] answers with the text of the exception and, under
    ['is_recording'], the global flag of the recorder -- not the flag of the
    session asked about. *)
Theorem get_status_falls_back_to_global_flag reads recorder_id config w e :
  Dict.get recorder_id (recorders (self w)) = Some config ->
  RecorderConfig.is_recording config = true ->
  on_get_buffer_status reads (RecorderConfig.video_stream config) = Raise e \/
  (returned (on_get_buffer_status reads (RecorderConfig.video_stream config)) = true /\
   on_get_pipeline_status reads (RecorderConfig.transcription_pipeline config)
     = Raise e) \/
  (returned (on_get_buffer_status reads (RecorderConfig.video_stream config)) = true /\
   returned (on_get_pipeline_status reads
               (RecorderConfig.transcription_pipeline config)) = true /\
   on_get_context_status reads = Raise e) ->
  RecorderReads.get_status reads recorder_id w =
  (Return (PyDict [("is_recording", PyBool (is_recording (self w)));
                   ("error", PyStr (exn_str e))]), w).
Proof.
  intros Hget Hon Hraise. unfold RecorderReads.get_status. run_reads.
  rewrite (contains_known _ _ _ Hget). step_py. rewrite Hget. step_py.
  rewrite Hon. step_py. rewrite Hget. step_py.
  destruct Hraise as [H1|[[H1 H2]|(H1 & H2 & H3)]].
  - by rewrite H1.
  - destruct (on_get_buffer_status reads _); [|done]. step_py. by rewrite H2.
  - destruct (on_get_buffer_status reads _); [|done]. step_py.
    destruct (on_get_pipeline_status reads _); [|done]. step_py. by rewrite H3.
Qed.

Lemma get_status_falls_back_to_global_flag_witness :
  session_active "rec-1" shut_down_in_vain = true /\
  eval (RecorderReads.get_status pipeline_read_fails "rec-1") shut_down_in_vain =
  Return (PyDict [("is_recording", PyBool false);
                  ("error", PyStr "pipeline gone")]).
Proof.
  split; [reflexivity|].
  unfold eval.
  rewrite (get_status_falls_back_to_global_flag pipeline_read_fails "rec-1"
             (RecorderConfig.set_is_recording true rec1_config) shut_down_in_vain
             (CollaboratorError "pipeline gone") eq_refl eq_refl).
  - reflexivity.
  - right. left. split; reflexivity.
Defined.

(** ** Reading the context and the summary *)

(** X13.  [get_current_context] and [export_session_summary] never raise
    and never change the recorder or the files.  While the global flag is
    off they answer a fixed text without asking the integrator; while it is
    on they hand back what the integrator answers, or a text made of the
    exception when it raises. *)
Theorem context_reads_are_guarded env reads w :
  (is_recording (self w) = false ->
   RecorderReads.get_current_context env w
     = (Return (PyStr "No recording in progress"), w) /\
   RecorderReads.export_session_summary reads w
     = (Return (PyStr "No recording session to export"), w)) /\
  (is_recording (self w) = true ->
   RecorderReads.get_current_context env w =
     (Return match on_get_current_context env with
             | Return context => context
             | Raise e => PyStr ("Error getting context: " +:+ exn_str e)
             end,
      mkWorld (self w) (files w)
        (calls w ++ [Ev get_current_context
                       (returned (on_get_current_context env))])) /\
   RecorderReads.export_session_summary reads w =
     (Return match on_export_session_summary reads with
             | Return summary => summary
             | Raise e => PyStr ("Error exporting session: " +:+ exn_str e)
             end, w)).
Proof.
  unfold RecorderReads.get_current_context, RecorderReads.export_session_summary.
  run_reads. split; intros ->; step_py; [done|].
  split.
  - by destruct (on_get_current_context env).
  - by destruct (on_export_session_summary reads).
Qed.

(** ** More on the context cache sink *)

Lemma context_update_unavailable env context_update w e :
  on_get_current_context env = Raise e ->
  Recorder._on_context_update env context_update w =
  (Return tt, mkWorld (self w) (files w) (calls w ++ [Ev get_current_context false])).
Proof.
  intros Hctx. unfold Recorder._on_context_update. run_py. by rewrite Hctx.
Qed.

Lemma context_update_not_encoded env context_update w snapshot e :
  on_get_current_context env = Return snapshot ->
  snapshot_text env snapshot = Raise e ->
  exists encoder,
    (encoder = json_dumps snapshot \/ encoder = str snapshot) /\
    Recorder._on_context_update env context_update w =
    (Return tt, mkWorld (self w) (files w)
                  (calls w ++ [Ev get_current_context true; Ev encoder false])).
Proof.
  intros Hctx Htext. unfold Recorder._on_context_update. run_py.
  rewrite Hctx. step_py.
  destruct snapshot; cbn [snapshot_text] in Htext; try discriminate Htext;
    step_py; rewrite Htext; step_py; rewrite <- ?app_assoc; eauto.
Qed.

(** X14.  When the context cannot be read, or cannot be turned into text,
    the update stops there: [write_text] is never called and every file,
    the cache file included, keeps its content. *)
Theorem update_without_text_writes_nothing env context_update w e :
  on_get_current_context env = Raise e \/
  (exists snapshot,
     on_get_current_context env = Return snapshot /\
     snapshot_text env snapshot = Raise e) ->
  let w' := exec (Recorder._on_context_update env context_update) w in
  files w' = files w /\
  exists made,
    calls w' = calls w ++ made /\
    forall path text ok, Ev (write_text path text) ok ∉ made.
Proof.
  unfold exec. intros [Hctx|(snapshot & Hctx & Htext)].
  - rewrite (context_update_unavailable _ _ _ _ Hctx). cbn [snd files calls].
    split; [done|]. eexists. split; [done|].
    intros path text ok Hin. apply list_elem_of_singleton in Hin. discriminate Hin.
  - destruct (context_update_not_encoded _ context_update w _ _ Hctx Htext)
      as (encoder & Hencoder & ->).
    cbn [snd files calls]. split; [done|]. eexists. split; [done|].
    intros path text ok Hin.
    apply elem_of_cons in Hin as [Hin|Hin]; [discriminate Hin|].
    apply list_elem_of_singleton in Hin.
    destruct Hencoder as [-> | ->]; discriminate Hin.
Qed.

Lemma update_without_text_writes_nothing_witness :
  on_get_current_context context_read_fails
    = Raise (CollaboratorError "integrator busy") /\
  files (exec (Recorder._on_context_update context_read_fails PyNone)
           reader_side_world)
    = files reader_side_world.
Proof.
  split; [reflexivity|].
  apply (update_without_text_writes_nothing context_read_fails PyNone
           reader_side_world (CollaboratorError "integrator busy")).
  left. reflexivity.
Defined.

(** X15.  Updates overwrite, they do not append: after two updates in a
    row that both go through, the files are what a single update with the
    second snapshot would have left -- the cache file holds the second text
    and nothing of the first. *)
Theorem successive_updates_keep_the_last
  env1 env2 update1 update2 w snapshot1 text1 snapshot2 text2 :
  on_get_current_context env1 = Return snapshot1 ->
  snapshot_text env1 snapshot1 = Return text1 ->
  on_write_text env1 (cache_file (self w)) text1 = Return tt ->
  on_get_current_context env2 = Return snapshot2 ->
  snapshot_text env2 snapshot2 = Return text2 ->
  on_write_text env2 (cache_file (self w)) text2 = Return tt ->
  let w1 := exec (Recorder._on_context_update env1 update1) w in
  let w2 := exec (Recorder._on_context_update env2 update2) w1 in
  files w2 = <[cache_file (self w) := Text text2]> (files w) /\
  files w2 = files (exec (Recorder._on_context_update env2 update2) w) /\
  files w2 !! cache_file (self w) = Some (Text text2).
Proof.
  intros Hctx1 Htext1 Hwrite1 Hctx2 Htext2 Hwrite2. unfold exec.
  destruct (context_update_writes env1 update1 w _ _ Hctx1 Htext1 Hwrite1)
    as (made1 & ->).
  destruct (context_update_writes env2 update2 w _ _ Hctx2 Htext2 Hwrite2)
    as (made2 & ->).
  cbn [snd].
  destruct (context_update_writes env2 update2
              (mkWorld (self w) (<[cache_file (self w) := Text text1]> (files w))
                 (calls w ++ made1)) _ _ Hctx2 Htext2 Hwrite2)
    as (made3 & ->).
  cbn [snd files self]. rewrite insert_insert_eq.
  split; [done|]. split; [done|]. apply lookup_insert_eq.
Qed.

Lemma successive_updates_keep_the_last_witness :
  on_get_current_context all_fine = Return (PyStr "editing recorder.py") /\
  on_get_current_context later_context = Return (PyStr "running the tests") /\
  files (exec (Recorder._on_context_update later_context PyNone)
           (exec (Recorder._on_context_update all_fine PyNone) reader_side_world))
    !! "/home/u/.cache/inframe/04072025" = Some (Text "running the tests").
Proof.
  split; [reflexivity|]. split; [reflexivity|].
  apply (successive_updates_keep_the_last all_fine later_context PyNone PyNone
           reader_side_world (PyStr "editing recorder.py") "editing recorder.py"
           (PyStr "running the tests") "running the tests");
    reflexivity.
Defined.

(** X16.  A snapshot that is already text goes straight from the
    integrator to [write_text]: neither [json.dumps] nor [str] is called on
    it, whether the write then goes through or not. *)
Theorem text_snapshot_is_not_encoded env context_update w text :
  on_get_current_context env = Return (PyStr text) ->
  calls (exec (Recorder._on_context_update env context_update) w) =
  calls w ++ [Ev get_current_context true;
              Ev (write_text (cache_file (self w)) text)
                 (returned (on_write_text env (cache_file (self w)) text))].
Proof.
  intros Hctx. unfold exec, Recorder._on_context_update. run_py.
  rewrite Hctx. step_py.
  destruct (on_write_text env _ _) as [[]|e]; step_py; by rewrite <- app_assoc.
Qed.

Lemma text_snapshot_is_not_encoded_witness :
  on_get_current_context write_fails = Return (PyStr "editing recorder.py") /\
  calls (exec (Recorder._on_context_update write_fails PyNone) reader_side_world) =
  [Ev get_current_context true;
   Ev (write_text "/home/u/.cache/inframe/04072025" "editing recorder.py") false].
Proof.
  split; [reflexivity|].
  apply (text_snapshot_is_not_encoded write_fails PyNone reader_side_world
           "editing recorder.py" eq_refl).
Defined.

(** ** The status tool *)

Lemma no_marker_keeps_recent lines recent :
  Forall (fun line => startswith line "NEW RECORDING SESSION" = false) lines ->
  fold_left (fun recent_session line =>
     if startswith line "NEW RECORDING SESSION" then Some line
     else recent_session) lines recent = recent.
Proof.
  induction 1 as [|line lines Hline _ IH] in recent |- *; cbn; [done|].
  by rewrite Hline.
Qed.

Lemma most_recent_is_last_marker before line after :
  startswith line "NEW RECORDING SESSION" = true ->
  Forall (fun l => startswith l "NEW RECORDING SESSION" = false) after ->
  most_recent_session (before ++ line :: after) = Some line.
Proof.
  intros Hline Hafter. unfold most_recent_session.
  rewrite fold_left_app. cbn [fold_left]. rewrite Hline.
  by apply no_marker_keeps_recent.
Qed.

Lemma marker_line_is_truthy line :
  startswith line "NEW RECORDING SESSION" = true -> truthy (Some line) = true.
Proof.
  intros Hline. destruct line; [discriminate Hline|].
  unfold truthy. by rewrite bool_decide_eq_false_2.
Qed.

(** X17.  When the cache file, as it is read, has lines starting with
    [NEW RECORDING SESSION], [check_screen_context_status] reports the last
    of them, whatever comes before or after it, together with the length of
    the whole content read. *)
Theorem status_reports_the_last_session home now w stored before line after :
  files w !! ContextMcpServer.cache_file home now = Some (Text stored) ->
  let content := universal_newlines stored in
  split newline content = before ++ line :: after ->
  startswith line "NEW RECORDING SESSION" = true ->
  Forall (fun l => startswith l "NEW RECORDING SESSION" = false) after ->
  ContextMcpServer.check_screen_context_status home now w =
  (Return ("Screen context is available. " +:+ line +:+
           String newline "Total content length: " +:+ len_str content +:+
           " characters"), w).
Proof.
  intros Hfile content Hsplit Hline Hafter.
  destruct (reader_on_content home now w stored Hfile) as [_ ->].
  fold content. unfold status_of. cbv zeta. rewrite Hsplit.
  rewrite (most_recent_is_last_marker _ _ _ Hline Hafter).
  by rewrite (marker_line_is_truthy _ Hline).
Qed.

Lemma status_reports_the_last_session_witness :
  files two_sessions_world !! ContextMcpServer.cache_file "/home/u" july_4th
    = Some (Text two_sessions_text) /\
  eval (ContextMcpServer.check_screen_context_status "/home/u" july_4th)
    two_sessions_world =
  Return ("Screen context is available. NEW RECORDING SESSION 10:30" +:+
          String newline "Total content length: 70 characters").
Proof.
  split; [reflexivity|].
  unfold eval.
  rewrite (status_reports_the_last_session "/home/u" july_4th two_sessions_world
             two_sessions_text ["NEW RECORDING SESSION 09:00"; "typing"]
             "NEW RECORDING SESSION 10:30" ["reading"]).
  - reflexivity.
  - reflexivity.
  - reflexivity.
  - reflexivity.
  - repeat constructor.
Defined.

(** X18.  When no line of the cache file, as it is read, starts with
    [NEW RECORDING SESSION], [check_screen_context_status] says that the
    file exists but holds no session, and gives the length of the content
    read. *)
Theorem status_without_session_marker home now w stored :
  files w !! ContextMcpServer.cache_file home now = Some (Text stored) ->
  let content := universal_newlines stored in
  Forall (fun l => startswith l "NEW RECORDING SESSION" = false)
    (split newline content) ->
  ContextMcpServer.check_screen_context_status home now w =
  (Return ("Screen context file exists but no sessions found. Content length: " +:+
           len_str content +:+ " characters"), w).
Proof.
  intros Hfile content Hnone.
  destruct (reader_on_content home now w stored Hfile) as [_ ->].
  fold content. unfold status_of, most_recent_session. cbv zeta.
  by rewrite (no_marker_keeps_recent _ None Hnone).
Qed.

Lemma status_without_session_marker_witness :
  files (exec (Recorder._on_context_update all_fine PyNone) reader_side_world)
    !! ContextMcpServer.cache_file "/home/u" july_4th
    = Some (Text "editing recorder.py") /\
  eval (ContextMcpServer.check_screen_context_status "/home/u" july_4th)
    (exec (Recorder._on_context_update all_fine PyNone) reader_side_world) =
  Return "Screen context file exists but no sessions found. Content length: 19 characters".
Proof.
  split; [reflexivity|].
  unfold eval.
  rewrite (status_without_session_marker "/home/u" july_4th _ "editing recorder.py").
  - reflexivity.
  - reflexivity.
  - repeat constructor.
Defined.

(** ** What the tools of the two servers have in common *)

(** X19.  The five tools of the two servers change nothing, neither the
    files nor the recorder, and what they give depends on what is at the
    cache path alone.  When nothing is there, each returns the "no screen
    context available" text of its server.  When a text file is there, the
    three context tools return its text as read, and the two status tools
    the same status.  When what is there cannot be read, every tool raises
    the exception of the read: none of them catches it. *)
Theorem cache_tools_only_read home now w :
  let answers (latest status net_resource net_latest net_status : result string) :=
    ContextMcpServer.get_latest_screen_context home now w = (latest, w) /\
    ContextMcpServer.check_screen_context_status home now w = (status, w) /\
    ContextMcpServerNetwork.get_screen_context home now w = (net_resource, w) /\
    ContextMcpServerNetwork.get_latest_screen_context home now w = (net_latest, w) /\
    ContextMcpServerNetwork.check_screen_context_status home now w
      = (net_status, w) in
  ContextMcpServerNetwork.cache_file home now = ContextMcpServer.cache_file home now /\
  match files w !! ContextMcpServer.cache_file home now with
  | None =>
      answers (Return ContextMcpServer.no_context)
              (Return ContextMcpServer.no_context)
              (Return ContextMcpServerNetwork.no_context)
              (Return ContextMcpServerNetwork.no_context)
              (Return ContextMcpServerNetwork.no_context)
  | Some (Text stored) =>
      let content := universal_newlines stored in
      answers (Return content) (Return (status_of content))
              (Return content) (Return content) (Return (status_of content))
  | Some (Unreadable e) =>
      answers (Raise e) (Raise e) (Raise e) (Raise e) (Raise e)
  end.
Proof.
  cbv zeta. split; [reflexivity|].
  unfold ContextMcpServer.get_latest_screen_context,
    ContextMcpServer.check_screen_context_status,
    ContextMcpServerNetwork.get_screen_context,
    ContextMcpServerNetwork.get_latest_screen_context,
    ContextMcpServerNetwork.check_screen_context_status, exists_, read_text.
  change (ContextMcpServerNetwork.cache_file home now)
    with (ContextMcpServer.cache_file home now).
  run_py.
  destruct (files w !! ContextMcpServer.cache_file home now) as [[stored|e]|] eqn:Hfile;
    step_py; rewrite ?Hfile; step_py; repeat split.
Qed.

(** On a cache path that is a directory the tools raise. *)
Lemma tools_raise_on_a_directory :
  eval (ContextMcpServer.get_latest_screen_context "/home/u" july_4th) directory_world
    = Raise (IsADirectoryError "/home/u/.cache/inframe/04072025") /\
  eval (ContextMcpServerNetwork.check_screen_context_status "/home/u" july_4th)
    directory_world
    = Raise (IsADirectoryError "/home/u/.cache/inframe/04072025").
Proof. split; vm_compute; reflexivity. Qed.

(** ** One cache file per day *)

Lemma two_digits_inj a b :
  0 <= a < 100 -> 0 <= b < 100 -> two_digits a = two_digits b -> a = b.
Proof.
  intros Ha Hb H. unfold two_digits in H. injection H as H1 H2.
  apply digit_inj in H1, H2. Z.to_euclidean_division_equations. lia.
Qed.

Lemma four_digits_inj a b :
  0 <= a < 10000 -> 0 <= b < 10000 -> four_digits a = four_digits b -> a = b.
Proof.
  intros Ha Hb H. unfold four_digits, two_digits in H. cbn [String.append] in H.
  injection H as H1 H2 H3 H4.
  apply digit_inj in H1, H2, H3, H4. Z.to_euclidean_division_equations. lia.
Qed.

(** X20.  The name of the cache file tells the day: on two different
    dates the command line tool writes, by default, to two different files,
    and the servers read two different files. *)
Theorem one_cache_file_per_day home a b :
  valid_date a -> valid_date b ->
  (Args.cache_file (LocalContextRecorder.default_args home a)
     = Args.cache_file (LocalContextRecorder.default_args home b) -> a = b) /\
  (ContextMcpServer.cache_file home a = ContextMcpServer.cache_file home b -> a = b).
Proof.
  intros (Hya & Hma & Hda) (Hyb & Hmb & Hdb).
  destruct a as [ya ma da], b as [yb mb db]. cbn [year month day] in *.
  unfold LocalContextRecorder.default_args, ContextMcpServer.cache_file,
    ContextMcpServer.ddmmyyyy, path_join. cbn [Args.cache_file].
  split; intros H; do 3 apply append_cancel_l in H.
  - rewrite !strftime_Ymd in H. cbn [year month day] in H.
    unfold four_digits, two_digits in H. cbn [String.append] in H.
    injection H as H1 H2 H3 H4 H5 H6 H7 H8.
    assert (ya = yb) as ->.
    { apply four_digits_inj; [lia|lia|].
      unfold four_digits, two_digits. cbn [String.append]. congruence. }
    assert (ma = mb) as ->.
    { apply two_digits_inj; [lia|lia|]. unfold two_digits. congruence. }
    assert (da = db) as ->.
    { apply two_digits_inj; [lia|lia|]. unfold two_digits. congruence. }
    done.
  - rewrite !strftime_dmY in H. cbn [year month day] in H.
    unfold four_digits, two_digits in H. cbn [String.append] in H.
    injection H as H1 H2 H3 H4 H5 H6 H7 H8.
    assert (ya = yb) as ->.
    { apply four_digits_inj; [lia|lia|].
      unfold four_digits, two_digits. cbn [String.append]. congruence. }
    assert (ma = mb) as ->.
    { apply two_digits_inj; [lia|lia|]. unfold two_digits. congruence. }
    assert (da = db) as ->.
    { apply two_digits_inj; [lia|lia|]. unfold two_digits. congruence. }
    done.
Qed.

Lemma one_cache_file_per_day_witness :
  valid_date july_4th /\ valid_date (mkDate 2025 4 7) /\
  Args.cache_file (LocalContextRecorder.default_args "/home/u" july_4th)
    <> Args.cache_file (LocalContextRecorder.default_args "/home/u" (mkDate 2025 4 7)).
Proof.
  assert (valid_date july_4th) as Ha by (unfold valid_date; cbn; lia).
  assert (valid_date (mkDate 2025 4 7)) as Hb by (unfold valid_date; cbn; lia).
  split; [exact Ha|]. split; [exact Hb|].
  intros H.
  destruct (one_cache_file_per_day "/home/u" july_4th (mkDate 2025 4 7) Ha Hb)
    as [Hwriter _].
  specialize (Hwriter H). discriminate Hwriter.
Defined.

(** ** More on the command line tool *)

(** Context updates in a row that go through leave the last text in the
    cache file. *)
Lemma updates_write env pushed snapshot text : forall w,
  on_get_current_context env = Return snapshot ->
  snapshot_text env snapshot = Return text ->
  on_write_text env (cache_file (self w)) text = Return tt ->
  exists made,
    for_each pushed (Recorder._on_context_update env) w =
    (Return tt,
     mkWorld (self w)
       (match pushed with
        | [] => files w
        | _ :: _ => <[cache_file (self w) := Text text]> (files w)
        end)
       (calls w ++ made)).
Proof.
  induction pushed as [|u pushed IH]; intros w Hctx Htext Hwrite.
  - exists []. rewrite app_nil_r. by destruct w.
  - cbn [for_each]. cbv [mbind M_bind bind].
    destruct (context_update_writes env u w _ _ Hctx Htext Hwrite) as (made1 & ->).
    destruct (IH (mkWorld (self w) (<[cache_file (self w) := Text text]> (files w))
                    (calls w ++ made1)) Hctx Htext Hwrite) as (made & ->).
    cbn [self files calls]. exists (made1 ++ made). rewrite app_assoc.
    destruct pushed; [done|]. by rewrite insert_insert_eq.
Qed.

(** The run of [main_async] after a start that went through. *)
Lemma main_async_after_start env uuid pushed args fs :
  constructor_answers env None (Args.cache_file args) = true ->
  factories_answer env uuid = true ->
  cli_start_goes_through env uuid args ->
  exists fs' made,
    LocalContextRecorder.main_async env uuid pushed args (launch args fs) =
    (Return tt,
     mkWorld
       (let s := started uuid (cli_config uuid args)
                   (Recorder.with_recorders (Dict.set uuid (cli_config uuid args))
                      (Recorder.__init__ None (Args.cache_file args))) in
        if stops_go_through env (cli_config uuid args)
        then stopped uuid (RecorderConfig.set_is_recording true (cli_config uuid args)) s
        else s)
       fs' made) /\
    (forall snapshot text,
       on_get_current_context env = Return snapshot ->
       snapshot_text env snapshot = Return text ->
       on_write_text env (Args.cache_file args) text = Return tt ->
       fs' = match pushed with
             | [] => fs
             | _ :: _ => <[Args.cache_file args := Text text]> fs
             end).
Proof.
  intros Hbuilt [Hvideo Hpipeline]%factories_answer_both
    (Hcapture & Hanalysis & Hintegrator).
  unfold LocalContextRecorder.main_async. cbv [mbind M_bind bind].
  rewrite (new_at_launch _ _ _ Hbuilt).
  rewrite (add_recorder_succeeds _ _ _ _ _ _ Hvideo Hpipeline).
  fold (cli_config uuid args).
  erewrite (start_succeeds env uuid (cli_config uuid args)); cycle 1.
  { cbv [Recorder.with_recorders]. step_py. apply get_set_eq. }
  { exact Hcapture. } { exact Hanalysis. } { exact Hintegrator. }
  cbn [negb self files calls].
  set (s := started uuid (cli_config uuid args) _).
  set (log := (_ ++ started_calls _)).
  destruct (updates_keep_self env pushed (mkWorld s (files (launch args fs)) log))
    as (fs' & made & Hupdates).
  rewrite Hupdates. cbn [self files calls].
  destruct (stop_known_returns env uuid
              (RecorderConfig.set_is_recording true (cli_config uuid args))
              (mkWorld s fs' (log ++ made))) as (made' & Hstop).
  { subst s. unfold started. step_py. apply get_set_eq. }
  { done. }
  rewrite Hstop. cbn [self files calls].
  unfold Recorder.get_cache_file_path. cbv [mbind M_bind bind get_self ret].
  cbn [self].
  assert (forall path w,
            (if Args.print_context args
             then try_except
                    (there ← exists_ path;
                     if (there : bool) then read_text path;; ret tt else ret tt)
                    (fun _ => ret tt)
             else ret tt) w = (Return tt, w)) as Hprint.
  { intros path w. destruct (Args.print_context args); [|done].
    apply print_context_returns. }
  cbv [mbind M_bind bind] in Hprint. rewrite Hprint.
  eexists _, _. split; [reflexivity|].
  intros snapshot text Hctx Htext Hwrite.
  destruct (updates_write env pushed snapshot text
              (mkWorld s (files (launch args fs)) log) Hctx Htext)
    as (made2 & Hwritten).
  { subst s. exact Hwrite. }
  rewrite Hwritten in Hupdates. injection Hupdates as <- _.
  subst s. by destruct pushed.
Qed.


(** With both factories ready to answer, the tool exits with status 1
    when the directory of the cache file cannot be made. *)
Lemma unbuilt_recorder_exits_one :
  factories_answer mkdir_fails "rec-1" = true /\
  LocalContextRecorder.main mkdir_fails "rec-1" [PyNone] todays_args ∅ = 1.
Proof. split; vm_compute; reflexivity. Qed.



(** X23.  After a run of the tool in which the recorder was built, the
    session was started and the context updates go through, the cache file
    named on the command line holds the text of the context and every other
    file is untouched; when no update was pushed while the tool slept, no
    file is written at all. *)
Theorem cli_caches_the_context env uuid pushed args fs snapshot text :
  constructor_answers env None (Args.cache_file args) = true ->
  factories_answer env uuid = true ->
  cli_start_goes_through env uuid args ->
  on_get_current_context env = Return snapshot ->
  snapshot_text env snapshot = Return text ->
  on_write_text env (Args.cache_file args) text = Return tt ->
  files (exec (LocalContextRecorder.main_async env uuid pushed args) (launch args fs)) =
  match pushed with
  | [] => fs
  | _ :: _ => <[Args.cache_file args := Text text]> fs
  end.
Proof.
  intros Hbuilt Hfactories Hstart Hctx Htext Hwrite. unfold exec.
  destruct (main_async_after_start env uuid pushed args fs Hbuilt Hfactories Hstart)
    as (fs' & made & -> & Hfs).
  cbn [snd files]. by apply (Hfs snapshot text).
Qed.

Lemma cli_caches_the_context_witness :
  constructor_answers all_fine None (Args.cache_file todays_args) = true /\
  factories_answer all_fine "rec-1" = true /\
  cli_start_goes_through all_fine "rec-1" todays_args /\
  files (exec (LocalContextRecorder.main_async all_fine "rec-1" [PyNone; PyNone]
                 todays_args) (launch todays_args ∅))
    !! "/home/u/.cache/inframe/20250704" = Some (Text "editing recorder.py").
Proof.
  assert (cli_start_goes_through all_fine "rec-1" todays_args) as Hstart
    by (repeat split).
  split; [reflexivity|]. split; [reflexivity|]. split; [exact Hstart|].
  rewrite (cli_caches_the_context all_fine "rec-1" [PyNone; PyNone] todays_args ∅
             (PyStr "editing recorder.py") "editing recorder.py"
             eq_refl eq_refl Hstart eq_refl eq_refl eq_refl).
  reflexivity.
Defined.

(** ** The example agent *)

Lemma shutdown_returns env w :
  exists w',
    Recorder.shutdown env w = (Return tt, w') /\
    active_recorders (self w') = 0 /\
    is_recording (self w') = false.
Proof.
  destruct (shutdown_loop_spec env (Dict.keys (recorders (self w))) w)
    as (w1 & Hloop & _).
  { intros k. apply get_known_key. }
  eexists. split.
  { rewrite shutdown_unfold. cbv [mbind M_bind bind]. rewrite Hloop. reflexivity. }
  by cbn.
Qed.

Lemma graceful_shutdown_sets_flag env query aw :
  SimpleAgent._cleanup_done
    (SimpleAgent.agent (snd (SimpleAgent.graceful_shutdown env query aw))) = true.
Proof.
  unfold SimpleAgent.graceful_shutdown. run_agent.
  destruct (SimpleAgent._cleanup_done (SimpleAgent.agent aw)) eqn:Hdone; [done|].
  run_agent. destruct (on_query_shutdown query) as [[]|e]; run_agent; [|done].
  by destruct (Recorder.shutdown env (SimpleAgent.recorder aw)).
Qed.

(** X24.  [graceful_shutdown] does its work at most once: after a first
    call, whether it returned or raised, any further call (and so any
    [stop_session]) returns at once and touches neither the query engine
    nor the recorder. *)
Theorem graceful_shutdown_runs_once env query env' query' aw :
  let aw1 := snd (SimpleAgent.graceful_shutdown env query aw) in
  SimpleAgent.graceful_shutdown env' query' aw1 = (Return tt, aw1) /\
  SimpleAgent.stop_session env' query' aw1 = (Return tt, aw1).
Proof.
  cbv zeta. pose proof (graceful_shutdown_sets_flag env query aw) as Hdone.
  unfold SimpleAgent.stop_session.
  assert (forall aw1, SimpleAgent._cleanup_done (SimpleAgent.agent aw1) = true ->
            SimpleAgent.graceful_shutdown env' query' aw1 = (Return tt, aw1)) as Hnoop.
  { intros aw1 H1. unfold SimpleAgent.graceful_shutdown. run_agent. by rewrite H1. }
  split; by apply Hnoop.
Qed.

(** X25.  When shutting the query engine down raises, the first
    [graceful_shutdown] lets the exception through with the cleanup flag
    already set and without having reached the recorder: the recorder is
    exactly as it was, and no later [graceful_shutdown] will shut it
    down. *)
Theorem failed_query_shutdown_strands_recorder env query aw e :
  SimpleAgent._cleanup_done (SimpleAgent.agent aw) = false ->
  on_query_shutdown query = Raise e ->
  let aw1 := snd (SimpleAgent.graceful_shutdown env query aw) in
  fst (SimpleAgent.graceful_shutdown env query aw) = Raise e /\
  SimpleAgent.recorder aw1 = SimpleAgent.recorder aw /\
  SimpleAgent._cleanup_done (SimpleAgent.agent aw1) = true /\
  forall env' query',
    SimpleAgent.recorder (snd (SimpleAgent.graceful_shutdown env' query' aw1))
      = SimpleAgent.recorder aw.
Proof.
  intros Hdone Hraise. cbv zeta.
  assert (SimpleAgent.graceful_shutdown env query aw =
          (Raise e,
           SimpleAgent.mkAgentWorld
             (SimpleAgent.set_cleanup_done true (SimpleAgent.agent aw))
             (SimpleAgent.recorder aw)
             (SimpleAgent.query_calls aw ++ [QEv query_shutdown false]))) as ->.
  { unfold SimpleAgent.graceful_shutdown. run_agent. rewrite Hdone. run_agent.
    by rewrite Hraise. }
  cbn [fst snd SimpleAgent.recorder SimpleAgent.agent].
  split; [done|]. split; [done|]. split; [done|].
  intros env' query'.
  unfold SimpleAgent.graceful_shutdown. by run_agent.
Qed.

Lemma failed_query_shutdown_strands_recorder_witness :
  SimpleAgent._cleanup_done (SimpleAgent.agent running_agent) = false /\
  session_active "rec-1" (SimpleAgent.recorder running_agent) = true /\
  session_active "rec-1"
    (SimpleAgent.recorder
       (snd (SimpleAgent.graceful_shutdown all_fine query_fine
               (snd (SimpleAgent.graceful_shutdown all_fine query_shutdown_fails
                       running_agent))))) = true.
Proof.
  split; [reflexivity|]. split; [reflexivity|].
  destruct (failed_query_shutdown_strands_recorder all_fine query_shutdown_fails
              running_agent (CollaboratorError "task still running")
              eq_refl eq_refl) as (_ & _ & _ & Hlater).
  rewrite (Hlater all_fine query_fine). reflexivity.
Defined.

(** X26.  A first [graceful_shutdown] whose query engine shuts down
    returns, having shut the query engine down before the recorder, and
    leaves the recorder with its counter at 0 and its global flag off. *)
Theorem graceful_shutdown_shuts_both_down env query aw :
  SimpleAgent._cleanup_done (SimpleAgent.agent aw) = false ->
  on_query_shutdown query = Return tt ->
  let aw1 := snd (SimpleAgent.graceful_shutdown env query aw) in
  fst (SimpleAgent.graceful_shutdown env query aw) = Return tt /\
  SimpleAgent.query_calls aw1 = SimpleAgent.query_calls aw ++ [QEv query_shutdown true] /\
  SimpleAgent.recorder aw1 = exec (Recorder.shutdown env) (SimpleAgent.recorder aw) /\
  active_recorders (self (SimpleAgent.recorder aw1)) = 0 /\
  is_recording (self (SimpleAgent.recorder aw1)) = false.
Proof.
  intros Hdone Hanswer. cbv zeta.
  destruct (shutdown_returns env (SimpleAgent.recorder aw)) as (w' & Hshut & H0 & Hoff).
  assert (SimpleAgent.graceful_shutdown env query aw =
          (Return tt,
           SimpleAgent.mkAgentWorld
             (SimpleAgent.set_cleanup_done true (SimpleAgent.agent aw)) w'
             (SimpleAgent.query_calls aw ++ [QEv query_shutdown true]))) as ->.
  { unfold SimpleAgent.graceful_shutdown. run_agent. rewrite Hdone. run_agent.
    rewrite Hanswer. run_agent. by rewrite Hshut. }
  cbn [fst snd SimpleAgent.recorder SimpleAgent.query_calls].
  unfold exec. rewrite Hshut. by cbn [snd].
Qed.

Lemma graceful_shutdown_shuts_both_down_witness :
  SimpleAgent._cleanup_done (SimpleAgent.agent running_agent) = false /\
  session_active "rec-1" (SimpleAgent.recorder running_agent) = true /\
  active_recorders
    (self (SimpleAgent.recorder
             (snd (SimpleAgent.graceful_shutdown all_fine query_fine running_agent))))
    = 0.
Proof.
  split; [reflexivity|]. split; [reflexivity|].
  apply (graceful_shutdown_shuts_both_down all_fine query_fine running_agent
           eq_refl eq_refl).
Defined.

(** X27.  When the recorder does not start, [post_init] raises
    [Exception("Failed to start recorder")].  By then the session is filed
    in the registry and remembered by the agent, and the query engine has
    not been called: no query exists. *)
Theorem post_init_raises_when_start_fails env query uuid aw :
  factories_answer env uuid = true ->
  eval (Recorder.start env uuid)
    (exec (Recorder.add_recorder env uuid (Some SimpleAgent.include_apps) full_screen
             (Some SimpleAgent.visual_task)) (SimpleAgent.recorder aw))
    = Return false ->
  let aw1 := snd (SimpleAgent.post_init env query uuid aw) in
  fst (SimpleAgent.post_init env query uuid aw)
    = Raise (PyException "Failed to start recorder") /\
  SimpleAgent.recorder_id (SimpleAgent.agent aw1) = Some uuid /\
  Dict.contains uuid (recorders (self (SimpleAgent.recorder aw1))) = true /\
  SimpleAgent.query_calls aw1 = SimpleAgent.query_calls aw.
Proof.
  intros [Hvideo Hpipeline]%factories_answer_both Hstart. cbv zeta.
  unfold exec, eval in Hstart.
  rewrite (add_recorder_succeeds _ _ _ _ _ _ Hvideo Hpipeline) in Hstart.
  cbn [snd] in Hstart.
  unfold SimpleAgent.post_init. run_agent.
  rewrite (add_recorder_succeeds _ _ _ _ _ _ Hvideo Hpipeline). run_agent.
  match type of Hstart with
  | (Recorder.start env uuid ?w1).1 = _ =>
      pose proof (start_keeps_keys_and_path env uuid w1) as [Hkeys _];
      unfold exec in Hkeys;
      destruct (Recorder.start env uuid w1) as [r w2] eqn:Hrun
  end.
  cbn [fst snd] in *. subst r. run_agent.
  split; [done|]. split; [done|]. split; [|done].
  cbn [SimpleAgent.recorder]. unfold Dict.contains.
  assert (uuid ∈ Dict.keys (recorders (self w2))) as Hin.
  { rewrite Hkeys. cbv [Recorder.with_recorders]. step_py.
    eapply key_of_get, get_set_eq. }
  by apply get_known_key in Hin as [c ->].
Qed.

Lemma post_init_raises_when_start_fails_witness :
  factories_answer capture_fails "rec-1" = true /\
  fst (SimpleAgent.post_init capture_fails query_fine "rec-1" new_agent)
    = Raise (PyException "Failed to start recorder").
Proof.
  split; [reflexivity|].
  apply (post_init_raises_when_start_fails capture_fails query_fine "rec-1" new_agent);
    reflexivity.
Defined.

(** X28.  When the recorder starts and the query engine answers,
    [post_init] returns with the session active; it has created the IDE
    query and the directory query, in this order and each polled every 3
    seconds, and started the IDE query only. *)
Theorem post_init_starts_the_ide_query_only env query uuid aw ide directory :
  factories_answer env uuid = true ->
  on_start_stream env uuid full_screen = Return true ->
  on_start_pipeline env uuid uuid (Some SimpleAgent.visual_task) = Return tt ->
  on_start_integrator env uuid = Return tt ->
  on_add_query query SimpleAgent.ide_prompt "on_ide_detected" 3 = Return ide ->
  on_add_query query SimpleAgent.directory_prompt "on_directory_detected" 3
    = Return directory ->
  on_query_start query ide = Return tt ->
  let aw1 := snd (SimpleAgent.post_init env query uuid aw) in
  fst (SimpleAgent.post_init env query uuid aw) = Return tt /\
  SimpleAgent.agent aw1 =
    SimpleAgent.mk (Some uuid) (Some ide) (Some directory)
      (SimpleAgent._cleanup_done (SimpleAgent.agent aw)) /\
  session_active uuid (SimpleAgent.recorder aw1) = true /\
  SimpleAgent.query_calls aw1 =
    SimpleAgent.query_calls aw ++
    [QEv (add_query SimpleAgent.ide_prompt "on_ide_detected" 3) true;
     QEv (add_query SimpleAgent.directory_prompt "on_directory_detected" 3) true;
     QEv (query_start ide) true].
Proof.
  intros [Hvideo Hpipeline]%factories_answer_both Hcapture Hanalysis Hintegrator
    Hide Hdirectory Hstart. cbv zeta.
  unfold SimpleAgent.post_init. run_agent.
  rewrite (add_recorder_succeeds _ _ _ _ _ _ Hvideo Hpipeline). run_agent.
  erewrite (start_succeeds env uuid
              (RecorderConfig.mk (Some SimpleAgent.include_apps) full_screen
                 (Some SimpleAgent.visual_task) uuid uuid false)); cycle 1.
  { cbv [Recorder.with_recorders]. step_py. apply get_set_eq. }
  { exact Hcapture. } { exact Hanalysis. } { exact Hintegrator. }
  run_agent. rewrite Hide. run_agent. rewrite Hdirectory. run_agent.
  rewrite Hstart.
  cbn [fst snd returned SimpleAgent.recorder SimpleAgent.agent
       SimpleAgent.query_calls].
  split; [done|]. split; [done|]. split.
  - unfold session_active, started. run_agent. step_py. by rewrite get_set_eq.
  - by rewrite <- !app_assoc.
Qed.

Lemma post_init_starts_the_ide_query_only_witness :
  factories_answer all_fine "rec-1" = true /\
  SimpleAgent.query_calls running_agent =
    [QEv (add_query SimpleAgent.ide_prompt "on_ide_detected" 3) true;
     QEv (add_query SimpleAgent.directory_prompt "on_directory_detected" 3) true;
     QEv (query_start "query:on_ide_detected") true].
Proof.
  split; [reflexivity|].
  apply (post_init_starts_the_ide_query_only all_fine query_fine "rec-1" new_agent
           "query:on_ide_detected" "query:on_directory_detected");
    reflexivity.
Defined.
